(** * EsercizioABC: an in-memory document store and its Product repository

    Shallow embedding of [src/EsercizioABC.py].

    - Python [dict]s are insertion-ordered association lists ([Dict.t]):
      [find_all] exposes the iteration order of a collection.
    - A method that reads or mutates [Database._data] is a function
      [Database -> outcome A * Database]: the outcome of the call (a returned
      value or a raised exception) together with the store left behind.  The
      store is returned on a raise as well, since a Python exception does not
      roll anything back.
    - [ProductRepository.client] is a reference to one shared [Database]; the
      repository methods therefore run in the same monad, over that store. *)

From Stdlib Require Import List String Bool Arith ZArith Lia PrimFloat.
Import ListNotations.
Local Open Scope string_scope.
Local Open Scope list_scope.

(** ** Python dictionaries with string keys *)

Module Dict.
Section Dict.
Context {V : Type}.

Definition t : Type := list (string * V).

(** [dict()] *)
Definition empty : t := [].

(** [d.get(k)]: [None] when the key is missing. *)
Fixpoint get (d : t) (k : string) : option V :=
  match d with
  | [] => None
  | (k', v) :: d' => if String.eqb k k' then Some v else get d' k
  end.

(** [d.get(k, default)] *)
Definition get_default (d : t) (k : string) (default : V) : V :=
  match get d k with
  | Some v => v
  | None => default
  end.

(** [k in d] *)
Definition contains (d : t) (k : string) : bool :=
  match get d k with
  | Some _ => true
  | None => false
  end.

(** [d[k] = v]: an existing key keeps its position, a new key goes last. *)
Fixpoint set (d : t) (k : string) (v : V) : t :=
  match d with
  | [] => [(k, v)]
  | (k', v') :: d' =>
      if String.eqb k k' then (k', v) :: d' else (k', v') :: set d' k v
  end.

(** [del d[k]]: [None] stands for the [KeyError] of a missing key. *)
Fixpoint del (d : t) (k : string) : option t :=
  match d with
  | [] => None
  | (k', v') :: d' =>
      if String.eqb k k' then Some d'
      else match del d' k with
           | Some d'' => Some ((k', v') :: d'')
           | None => None
           end
  end.

(** [len(d)] *)
Definition len (d : t) : nat := List.length d.

(** [d.keys()], [d.values()] in iteration order. *)
Definition keys (d : t) : list string := map fst d.
Definition values (d : t) : list V := map snd d.

(** A Python dict holds each key once. *)
Fixpoint distinct (ks : list string) : bool :=
  match ks with
  | [] => true
  | k :: ks' => negb (existsb (String.eqb k) ks') && distinct ks'
  end.

Definition wf (d : t) : bool := distinct (keys d).
End Dict.
Arguments t : clear implicits.
End Dict.

(** ** Values, documents and the store *)

(** [datetime.datetime], naive (no tzinfo), as built by [datetime.now()]. *)
Record datetime : Type := mkDatetime {
  year : Z; month : Z; day : Z;
  hour : Z; minute : Z; second : Z; microsecond : Z
}.

(** The values a document field may hold ([Any]); the fragment of Python's
    universe that the annotations of this file name, plus [None] and [int]. *)
Inductive value : Type :=
| VNone
| VInt (n : Z)
| VFloat (x : float)
| VStr (s : string)
| VDateTime (t : datetime).

Definition Document : Type := Dict.t value.
Definition Collection : Type := Dict.t Document.
Definition DatabaseData : Type := Dict.t Collection.

(** Exceptions raised in this file.  [ConnectionError] is the builtin raised
    by the store ("not connected"); [TypeError] and [KeyError] are the
    builtins raised by the interpreter itself. *)
Inductive exn : Type :=
| ConnectionError
| TypeError
| KeyError
| DocumentAlreadyExists
| DocumentNotFound.

(** How a call ends.  [Untyped] is a normal return whose value lies outside
    the typed embedding: the dataclass constructor checks no annotation, so
    unpacking a document with the right keys and values of other types into
    it returns an object that is no [Product] record. *)
Inductive outcome (A : Type) : Type :=
| Return (a : A)
| Raise (e : exn)
| Untyped.
Arguments Return {A} a.
Arguments Raise {A} e.
Arguments Untyped {A}.

(** [class Database]: [_data] is [None] until [start] and after [stop]. *)
Record Database : Type := mkDatabase { _data : option DatabaseData }.

(** Methods over the shared store. *)
Definition M (A : Type) : Type := Database -> outcome A * Database.

Definition ret {A} (a : A) : M A := fun db => (Return a, db).
Definition raise {A} (e : exn) : M A := fun db => (Raise e, db).
Definition bind {A B} (m : M A) (f : A -> M B) : M B :=
  fun db =>
    match m db with
    | (Return a, db') => f a db'
    | (Raise e, db') => (Raise e, db')
    | (Untyped, db') => (Untyped, db')
    end.

Notation "x <- m ;; k" := (bind m (fun x => k))
  (at level 61, m at next level, right associativity).
Notation "m ;;; k" := (bind m (fun _ => k))
  (at level 61, right associativity).

(** [Database.__init__] *)
Definition Database_init : Database := mkDatabase None.

(** [Database.start] *)
Definition start (self : Database) : Database :=
  mkDatabase (Some Dict.empty).

(** [Database.stop] *)
Definition stop (self : Database) : Database :=
  mkDatabase None.

(** [Database.insert] *)
Definition insert (collection doc_id : string) (data : Document) : M bool :=
  fun self =>
    match _data self with
    | Some d =>
        let coll := Dict.get_default d collection Dict.empty in
        let coll := Dict.set coll doc_id data in
        (Return true, mkDatabase (Some (Dict.set d collection coll)))
    | None => (Raise ConnectionError, self)
    end.

(** [Database.remove].  The membership test reads [self._data.get(collection)]
    with no default: on a missing collection that is [doc_id in None], a
    [TypeError]. *)
Definition remove (collection doc_id : string) : M bool :=
  fun self =>
    match _data self with
    | Some d =>
        match Dict.get d collection with
        | None => (Raise TypeError, self)
        | Some c =>
            if Dict.contains c doc_id then
              let coll := Dict.get_default d collection Dict.empty in
              match Dict.del coll doc_id with
              | Some coll =>
                  (Return true, mkDatabase (Some (Dict.set d collection coll)))
              | None => (Raise KeyError, self)
              end
            else (Return false, self)
        end
    | None => (Raise ConnectionError, self)
    end.

(** [Database.fetch_collection] *)
Definition fetch_collection (collection : string) : M Collection :=
  fun self =>
    match _data self with
    | Some d => (Return (Dict.get_default d collection Dict.empty), self)
    | None => (Raise ConnectionError, self)
    end.

(** ** The Product entity *)

(** [@dataclass class Product], fields typed as annotated. *)
Record Product : Type := mkProduct {
  product_id : string;
  name : string;
  description : string;
  price : float;
  created : datetime;
  updated : datetime
}.

(** [dataclasses.asdict(entity)]: a fresh dict of the fields in declaration
    order; strings, floats and datetimes are copied to equal values. *)
Definition asdict (entity : Product) : Document :=
  [ ("product_id", VStr (product_id entity));
    ("name", VStr (name entity));
    ("description", VStr (description entity));
    ("price", VFloat (price entity));
    ("created", VDateTime (created entity));
    ("updated", VDateTime (updated entity)) ].

Definition Product_fields : list string :=
  ["product_id"; "name"; "description"; "price"; "created"; "updated"].

(** The constructor call with a document unpacked into keyword arguments.
    A key that is no field ("unexpected keyword argument") or a field with no
    key ("missing required argument") is a [TypeError]. *)
Definition Product_kwargs (kw : Document) : outcome Product :=
  if forallb (fun k => existsb (String.eqb k) Product_fields) (Dict.keys kw)
     && forallb (Dict.contains kw) Product_fields
  then
    match Dict.get kw "product_id", Dict.get kw "name",
          Dict.get kw "description", Dict.get kw "price",
          Dict.get kw "created", Dict.get kw "updated" with
    | Some (VStr i), Some (VStr n), Some (VStr d),
      Some (VFloat p), Some (VDateTime c), Some (VDateTime u) =>
        Return (mkProduct i n d p c u)
    | _, _, _, _, _, _ => Untyped
    end
  else Raise TypeError.

(** Truth value of [d.get(k)]: [None] and the empty dict are false. *)
Definition truthy (x : option Document) : bool :=
  match x with
  | None => false
  | Some d => negb (Nat.eqb (Dict.len d) 0)
  end.

(** A list comprehension [[f(x) for x in l]]: elements are built left to
    right and the first exception ends it. *)
Fixpoint comprehension {A B} (f : A -> outcome B) (l : list A)
  : outcome (list B) :=
  match l with
  | [] => Return []
  | a :: l' =>
      match f a with
      | Raise e => Raise e
      | Return b =>
          match comprehension f l' with
          | Return bs => Return (b :: bs)
          | Raise e => Raise e
          | Untyped => Untyped
          end
      | Untyped =>
          match comprehension f l' with
          | Raise e => Raise e
          | _ => Untyped
          end
      end
  end.

(** An expression that touches no state. *)
Definition pure {A} (o : outcome A) : M A := fun db => (o, db).

(** ** ProductRepository *)

(** [ProductRepository.create] *)
Definition create (entity : Product) : M Product :=
  coll <- fetch_collection "product";;
  let exists_ := Dict.get coll (product_id entity) in
  if negb (truthy exists_) then
    insert "product" (product_id entity) (asdict entity);;;
    ret entity
  else raise DocumentAlreadyExists.

(** [ProductRepository.update] *)
Definition update (doc_id : string) (entity : Product) : M Product :=
  coll <- fetch_collection "product";;
  let exists_ := Dict.get coll doc_id in
  if truthy exists_ then
    insert "product" (product_id entity) (asdict entity);;;
    ret entity
  else raise DocumentNotFound.

(** [ProductRepository.find_all] *)
Definition find_all : M (list Product) :=
  products <- fetch_collection "product";;
  if Nat.eqb (Dict.len products) 0 then raise DocumentNotFound
  else pure (comprehension Product_kwargs (Dict.values products)).

(** [ProductRepository.delete] *)
Definition delete (doc_id : string) : M bool :=
  coll <- fetch_collection "product";;
  let exists_ := Dict.get coll doc_id in
  if truthy exists_ then remove "product" doc_id
  else ret false.

(** [ProductRepository.find_by_id].  The [None] branch of the unpacking is
    the [TypeError] of unpacking a non-mapping; the truth test excludes it. *)
Definition find_by_id (doc_id : string) : M Product :=
  coll <- fetch_collection "product";;
  let product_dict := Dict.get coll doc_id in
  if truthy product_dict then
    match product_dict with
    | Some d => pure (Product_kwargs d)
    | None => raise TypeError
    end
  else raise DocumentNotFound.

(** ** Test fixtures, from [TestProductRepository] *)

Definition t0 : datetime := mkDatetime 2024 1 1 0 0 0 0.

(** [Product("1", "Test", "Test", 10.0, now, now)] *)
Definition product1 : Product := mkProduct "1" "Test" "Test" 10%float t0 t0.
Definition product2 : Product := mkProduct "2" "Test" "Test" 10%float t0 t0.

(** [retrieve_product_repo]: a repository over a freshly started store. *)
Definition retrieve_product_repo : Database := start Database_init.

(** A store with one empty document, written through [Database.insert]
    directly: [db.insert("product", "1", {})]. *)
Definition empty_document_store : Database :=
  snd (insert "product" "1" Dict.empty retrieve_product_repo).

(** ** Observations on the store *)

(** The store is started: [_data is not None]. *)
Definition started (s : Database) : bool :=
  match _data s with
  | Some _ => true
  | None => false
  end.

(** The document held under [doc_id] in [collection], a missing collection
    read as empty. *)
Definition lookup (s : Database) (collection doc_id : string)
  : option Document :=
  match _data s with
  | Some d => Dict.get (Dict.get_default d collection Dict.empty) doc_id
  | None => None
  end.

(** The "product" collection and its documents. *)
Definition products (s : Database) : Collection :=
  match _data s with
  | Some d => Dict.get_default d "product" Dict.empty
  | None => Dict.empty
  end.

Definition stored (s : Database) (doc_id : string) : option Document :=
  lookup s "product" doc_id.

(** Every dict of the store holds each key once, as a Python dict does. *)
Definition Collection_wf (c : Collection) : bool :=
  Dict.wf c && forallb Dict.wf (Dict.values c).

Definition Database_wf (s : Database) : bool :=
  match _data s with
  | None => true
  | Some d => Dict.wf d && forallb Collection_wf (Dict.values d)
  end.

(** Document id == [product_id] of the stored product, for every document of
    the "product" collection. *)
Definition keyed (entry : string * Document) : bool :=
  match Dict.get (snd entry) "product_id" with
  | Some (VStr i) => String.eqb (fst entry) i
  | _ => false
  end.

Definition keyed_by_product_id (s : Database) : bool :=
  forallb keyed (products s).

(** ** Sequences of repository calls *)

Inductive op : Type :=
| Create (entity : Product)
| Update (doc_id : string) (entity : Product)
| Delete (doc_id : string)
| FindById (doc_id : string)
| FindAll.

Inductive answer : Type :=
| AProduct (p : Product)
| ABool (b : bool)
| AList (l : list Product).

Definition call (o : op) : M answer :=
  match o with
  | Create e => p <- create e;; ret (AProduct p)
  | Update i e => p <- update i e;; ret (AProduct p)
  | Delete i => b <- delete i;; ret (ABool b)
  | FindById i => p <- find_by_id i;; ret (AProduct p)
  | FindAll => l <- find_all;; ret (AList l)
  end.

(** The calls are made one after the other by a caller that goes on after an
    exception; [run] is the store at the end, [trace] what each call gave. *)
Fixpoint run (ops : list op) (s : Database) : Database :=
  match ops with
  | [] => s
  | o :: ops' => run ops' (snd (call o s))
  end.

Fixpoint trace (ops : list op) (s : Database) : list (outcome answer) :=
  match ops with
  | [] => []
  | o :: ops' => fst (call o s) :: trace ops' (snd (call o s))
  end.

(** Store-level calls that insert nothing. *)
Inductive read_op : Type :=
| Remove (collection doc_id : string)
| FetchCollection (collection : string).

Definition read_call (o : read_op) (s : Database) : Database :=
  match o with
  | Remove c i => snd (remove c i s)
  | FetchCollection c => snd (fetch_collection c s)
  end.

Definition read_run (ops : list read_op) (s : Database) : Database :=
  fold_left (fun s o => read_call o s) ops s.

(** ** The statements that are compared with the code *)

(** [update] with an entity whose id is not [doc_id]: the entity is returned,
    its document is stored under its own id and the one under [doc_id] stays. *)
Definition update_adds_second_document
  (s : Database) (doc_id : string) (entity : Product) : Prop :=
  exists s',
    update doc_id entity s = (Return entity, s')
    /\ stored s' (product_id entity) = Some (asdict entity)
    /\ stored s' doc_id = stored s doc_id.

(** [delete] of a present id: true, and [find_by_id] then finds nothing. *)
Definition delete_then_not_found (s : Database) (doc_id : string) : Prop :=
  exists s',
    delete doc_id s = (Return true, s')
    /\ find_by_id doc_id s' = (Raise DocumentNotFound, s').

(** Create the products, then delete the ids. *)
Definition create_then_delete (ps : list Product) (ids : list string)
  : list op :=
  map Create ps ++ map Delete ids.

Definition subset (ids all : list string) : bool :=
  forallb (fun i => existsb (String.eqb i) all) ids.

(** [find_all] after N creations and M deletions: N - M products, or
    [DocumentNotFound] when none is left. *)
Definition find_all_counts (n m : nat) (s : Database) : Prop :=
  (0 < n - m ->
     exists l, find_all s = (Return l, s) /\ List.length l = n - m)
  /\ (n - m = 0 -> find_all s = (Raise DocumentNotFound, s)).

(** The "product" collection that holds exactly the products [ps], in
    order. *)
Definition entries (ps : list Product) : Collection :=
  map (fun p => (product_id p, asdict p)) ps.

(** A store whose "product" collection holds [product2] already. *)
Definition store_with_product2 : Database :=
  snd (create product2 retrieve_product_repo).

(** ** Further observations *)

(** [Database.data], the read-only property. *)
Definition data (self : Database) : option DatabaseData := _data self.

(** The collection is a key of the top-level mapping. *)
Definition has_collection (s : Database) (collection : string) : bool :=
  match _data s with
  | Some d => Dict.contains d collection
  | None => false
  end.

Definition is_some {A} (o : option A) : bool :=
  match o with
  | Some _ => true
  | None => false
  end.

(** The id a repository call may write to. *)
Definition written_id (o : op) : option string :=
  match o with
  | Create e => Some (product_id e)
  | Update _ e => Some (product_id e)
  | Delete i => Some i
  | FindById _ => None
  | FindAll => None
  end.

(** The products of [ps] whose id is not among [ids], in the order of
    [ps]. *)
Definition remaining (ps : list Product) (ids : list string)
  : list Product :=
  filter (fun p => negb (existsb (String.eqb (product_id p)) ids)) ps.

(** The document holds what the product holds, key by key. *)
Definition same_fields (doc : Document) (p : Product) : Prop :=
  forall k, Dict.get doc k = Dict.get (asdict p) k.

(** A store with a document that is no product, written through
    [Database.insert] directly: [db.insert("product", "9", {"x": 1})]. *)
Definition foreign_document_store : Database :=
  snd (insert "product" "9" [("x", VInt 1)] store_with_product2).

(** * Properties *)

Example test_find_all_returns_all_elements :
  (create product1;;; find_all) retrieve_product_repo
  = (Return [product1], mkDatabase (Some [("product", [("1", asdict product1)])])).
Proof. reflexivity. Qed.

Example test_find_all_raise_exception_if_no_elements_found :
  fst (find_all retrieve_product_repo) = Raise DocumentNotFound.
Proof. reflexivity. Qed.

Example test_delete_correctly_remove_element :
  fst ((create product1;;; create product2;;; delete "2";;; find_all)
         retrieve_product_repo) = Return [product1].
Proof. reflexivity. Qed.

Example test_delete_correctly_return_false_if_no_document_is_found :
  fst (delete "2" retrieve_product_repo) = Return false.
Proof. reflexivity. Qed.

Example test_find_by_id_return_single_element :
  fst ((create product1;;; create product2;;; find_by_id "2")
         retrieve_product_repo) = Return product2.
Proof. reflexivity. Qed.

Example test_find_by_id_raise_exception_if_no_elements_found :
  fst (find_by_id "2" retrieve_product_repo) = Raise DocumentNotFound.
Proof. reflexivity. Qed.

(** ** Facts about dictionaries *)

Module DictFacts.
Section DictFacts.
Context {V : Type}.
Implicit Types (d : Dict.t V) (k : string) (v : V).

Lemma get_set_same d k v : Dict.get (Dict.set d k v) k = Some v.
Proof.
  induction d as [|[k' v'] d IH]; simpl.
  - now rewrite String.eqb_refl.
  - destruct (String.eqb k k') eqn:E; simpl; rewrite E; auto.
Qed.

Lemma get_set_other d k k' v :
  k' <> k -> Dict.get (Dict.set d k v) k' = Dict.get d k'.
Proof.
  intros Hne. pose proof (proj2 (String.eqb_neq k' k) Hne) as Hb.
  induction d as [|[k0 v0] d IH]; simpl.
  - now rewrite Hb.
  - destruct (String.eqb k k0) eqn:E; simpl.
    + apply String.eqb_eq in E. subst k0. now rewrite Hb.
    + now rewrite IH.
Qed.

Lemma get_In d k v : Dict.get d k = Some v -> In (k, v) d.
Proof.
  induction d as [|[k' v'] d IH]; simpl; [discriminate|].
  destruct (String.eqb k k') eqn:E.
  - apply String.eqb_eq in E. intros [= ->]. subst. now left.
  - intros H. right. auto.
Qed.

Lemma get_None_keys d k : Dict.get d k = None <-> ~ In k (Dict.keys d).
Proof.
  induction d as [|[k' v'] d IH]; simpl.
  - tauto.
  - destruct (String.eqb k k') eqn:E.
    + apply String.eqb_eq in E. subst. split; [discriminate | tauto].
    + apply String.eqb_neq in E. rewrite IH. split.
      * intros H [H'|H']; [congruence | tauto].
      * tauto.
Qed.

Lemma existsb_eqb k (ks : list string) :
  existsb (String.eqb k) ks = true <-> In k ks.
Proof.
  rewrite existsb_exists. split.
  - intros (x & Hx & E). apply String.eqb_eq in E. now subst.
  - intros H. exists k. split; [assumption | apply String.eqb_refl].
Qed.

Lemma distinct_NoDup (ks : list string) :
  Dict.distinct ks = true <-> NoDup ks.
Proof.
  induction ks as [|k ks IH]; simpl.
  - split; [constructor | reflexivity].
  - rewrite andb_true_iff, negb_true_iff, IH. split.
    + intros [H1 H2]. constructor; [|assumption].
      intros Hin. apply existsb_eqb in Hin. congruence.
    + intros H. inversion H; subst. split; [|assumption].
      destruct (existsb (String.eqb k) ks) eqn:E; [|reflexivity].
      apply existsb_eqb in E. contradiction.
Qed.

Lemma set_In d k v k' v' :
  In (k', v') (Dict.set d k v) -> (k', v') = (k, v) \/ In (k', v') d.
Proof.
  induction d as [|[k0 v0] d IH]; simpl.
  - intros [H|[]]. now left.
  - destruct (String.eqb k k0) eqn:E; simpl.
    + apply String.eqb_eq in E. subst k0. intros [H|H]; auto.
    + intros [H|H]; auto. destruct (IH H); auto.
Qed.

Lemma keys_set_present d k v :
  Dict.get d k <> None -> Dict.keys (Dict.set d k v) = Dict.keys d.
Proof.
  induction d as [|[k0 v0] d IH]; simpl; [congruence|].
  destruct (String.eqb k k0) eqn:E; simpl; [reflexivity|].
  intros H. f_equal. auto.
Qed.

Lemma set_absent d k v :
  Dict.get d k = None -> Dict.set d k v = d ++ [(k, v)].
Proof.
  induction d as [|[k0 v0] d IH]; simpl; [reflexivity|].
  destruct (String.eqb k k0); [discriminate|].
  intros H. now rewrite IH.
Qed.

Lemma wf_set d k v : Dict.wf d = true -> Dict.wf (Dict.set d k v) = true.
Proof.
  unfold Dict.wf. intros H.
  destruct (Dict.get d k) eqn:E.
  - rewrite keys_set_present; [assumption | congruence].
  - rewrite set_absent by assumption. unfold Dict.keys in *.
    rewrite map_app. simpl. apply distinct_NoDup.
    apply distinct_NoDup in H. apply get_None_keys in E.
    apply NoDup_app; [assumption | repeat constructor; auto | ].
    intros x Hx [<-|[]]. contradiction.
Qed.

Lemma del_present d k :
  Dict.contains d k = true -> exists d', Dict.del d k = Some d'.
Proof.
  unfold Dict.contains.
  induction d as [|[k0 v0] d IH]; simpl; [discriminate|].
  destruct (String.eqb k k0); [eauto|].
  intros H. destruct (IH H) as [d' ->]. eauto.
Qed.

Lemma del_In d k d' k' v' :
  Dict.del d k = Some d' -> In (k', v') d' -> In (k', v') d.
Proof.
  revert d'. induction d as [|[k0 v0] d IH]; simpl; [discriminate|].
  intros d'. destruct (String.eqb k k0).
  - intros [= ->]. auto.
  - destruct (Dict.del d k) as [d''|]; [|discriminate].
    intros [= <-] [H|H]; eauto.
Qed.

Lemma keys_del d k d' :
  Dict.del d k = Some d' ->
  forall x, In x (Dict.keys d') -> In x (Dict.keys d).
Proof.
  revert d'. induction d as [|[k0 v0] d IH]; simpl; [discriminate|].
  intros d'. destruct (String.eqb k k0).
  - intros [= ->]. auto.
  - destruct (Dict.del d k) as [d''|]; [|discriminate].
    intros [= <-] x [H|H]; simpl; eauto.
Qed.

Lemma wf_del d k d' :
  Dict.wf d = true -> Dict.del d k = Some d' -> Dict.wf d' = true.
Proof.
  unfold Dict.wf. rewrite !distinct_NoDup. revert d'.
  induction d as [|[k0 v0] d IH]; simpl; [discriminate|].
  intros d' Hnd. inversion Hnd; subst. destruct (String.eqb k k0).
  - now intros [= <-].
  - destruct (Dict.del d k) as [d''|] eqn:E; [|discriminate].
    intros [= <-]. simpl. constructor; [|now apply IH].
    intros Hin. eapply keys_del in Hin; eauto.
Qed.

Lemma get_del_same d k d' :
  Dict.wf d = true -> Dict.del d k = Some d' -> Dict.get d' k = None.
Proof.
  unfold Dict.wf. rewrite distinct_NoDup. revert d'.
  induction d as [|[k0 v0] d IH]; simpl; [discriminate|].
  intros d' Hnd. inversion Hnd; subst. destruct (String.eqb k k0) eqn:E.
  - apply String.eqb_eq in E. subst k0. intros [= <-].
    now apply get_None_keys.
  - destruct (Dict.del d k) as [d''|]; [|discriminate].
    intros [= <-]. simpl. rewrite E. now apply IH.
Qed.

Lemma get_del_other d k d' k' :
  Dict.del d k = Some d' -> k' <> k -> Dict.get d' k' = Dict.get d k'.
Proof.
  intros Hd Hne. pose proof (proj2 (String.eqb_neq k' k) Hne) as Hb.
  revert d' Hd.
  induction d as [|[k0 v0] d IH]; simpl; [discriminate|].
  intros d'. destruct (String.eqb k k0) eqn:E.
  - apply String.eqb_eq in E. subst k0. intros [= <-]. now rewrite Hb.
  - destruct (Dict.del d k) as [d''|]; [|discriminate].
    intros [= <-]. simpl. now rewrite (IH d'').
Qed.

Lemma keys_set d k v :
  Dict.keys (Dict.set d k v)
  = if Dict.contains d k then Dict.keys d else Dict.keys d ++ [k].
Proof.
  unfold Dict.contains. destruct (Dict.get d k) eqn:E.
  - apply keys_set_present. congruence.
  - rewrite set_absent by assumption. unfold Dict.keys.
    now rewrite map_app.
Qed.

Lemma contains_set_same d k v : Dict.contains (Dict.set d k v) k = true.
Proof. unfold Dict.contains. now rewrite get_set_same. Qed.
End DictFacts.
End DictFacts.

(** ** Facts about the store *)

Lemma stored_products s doc_id :
  stored s doc_id = Dict.get (products s) doc_id.
Proof. unfold stored, lookup, products. now destruct (_data s). Qed.

Lemma started_insert s c i doc :
  started s = true -> started (snd (insert c i doc s)) = true.
Proof. unfold started, insert. now destruct (_data s). Qed.

Lemma fst_insert s c i doc :
  started s = true -> fst (insert c i doc s) = Return true.
Proof. unfold started, insert. now destruct (_data s). Qed.

Lemma lookup_insert_same s c i doc :
  started s = true -> lookup (snd (insert c i doc s)) c i = Some doc.
Proof.
  unfold started, insert, lookup. destruct (_data s); [|discriminate].
  intros _. simpl. unfold Dict.get_default at 1.
  now rewrite !DictFacts.get_set_same.
Qed.

Lemma lookup_insert_other s c i i' doc :
  i' <> i -> lookup (snd (insert c i doc s)) c i' = lookup s c i'.
Proof.
  intros Hne. unfold insert, lookup.
  destruct (_data s) eqn:E; simpl; [|now rewrite E].
  unfold Dict.get_default at 1.
  rewrite DictFacts.get_set_same. now apply DictFacts.get_set_other.
Qed.

Lemma products_insert s i doc :
  started s = true ->
  products (snd (insert "product" i doc s)) = Dict.set (products s) i doc.
Proof.
  unfold started, insert, products. destruct (_data s); [|discriminate].
  intros _. simpl. unfold Dict.get_default at 1.
  now rewrite DictFacts.get_set_same.
Qed.

Lemma fetch_products s :
  started s = true -> fetch_collection "product" s = (Return (products s), s).
Proof.
  unfold started, fetch_collection, products. now destruct (_data s).
Qed.

Lemma truthy_nonempty doc : doc <> Dict.empty -> truthy (Some doc) = true.
Proof. intros H. destruct doc; [now destruct H | reflexivity]. Qed.

Lemma Product_kwargs_asdict e : Product_kwargs (asdict e) = Return e.
Proof. destruct e. reflexivity. Qed.

(** ** Facts about the repository *)

Lemma create_fresh s e :
  started s = true ->
  truthy (stored s (product_id e)) = false ->
  create e s
  = (Return e, snd (insert "product" (product_id e) (asdict e) s)).
Proof.
  intros Hs Ht. unfold create, bind. rewrite fetch_products by assumption.
  rewrite <- stored_products, Ht. simpl.
  pose proof (fst_insert s "product" (product_id e) (asdict e) Hs) as Hi.
  destruct (insert "product" (product_id e) (asdict e) s) as [o s'].
  simpl in Hi. now subst o.
Qed.

Lemma create_existing s e :
  started s = true ->
  truthy (stored s (product_id e)) = true ->
  create e s = (Raise DocumentAlreadyExists, s).
Proof.
  intros Hs Ht. unfold create, bind. rewrite fetch_products by assumption.
  now rewrite <- stored_products, Ht.
Qed.

Lemma update_found s i e :
  started s = true ->
  truthy (stored s i) = true ->
  update i e s
  = (Return e, snd (insert "product" (product_id e) (asdict e) s)).
Proof.
  intros Hs Ht. unfold update, bind. rewrite fetch_products by assumption.
  rewrite <- stored_products, Ht.
  pose proof (fst_insert s "product" (product_id e) (asdict e) Hs) as Hi.
  destruct (insert "product" (product_id e) (asdict e) s) as [o s'].
  simpl in Hi. now subst o.
Qed.

Lemma update_missing s i e :
  started s = true ->
  truthy (stored s i) = false ->
  update i e s = (Raise DocumentNotFound, s).
Proof.
  intros Hs Ht. unfold update, bind. rewrite fetch_products by assumption.
  now rewrite <- stored_products, Ht.
Qed.

Lemma find_by_id_missing s i :
  started s = true ->
  truthy (stored s i) = false ->
  find_by_id i s = (Raise DocumentNotFound, s).
Proof.
  intros Hs Ht. unfold find_by_id, bind. rewrite fetch_products by assumption.
  now rewrite <- stored_products, Ht.
Qed.

Lemma find_by_id_found s i doc :
  started s = true ->
  stored s i = Some doc ->
  truthy (Some doc) = true ->
  find_by_id i s = (Product_kwargs doc, s).
Proof.
  intros Hs Hd Ht. unfold find_by_id, bind.
  rewrite fetch_products by assumption.
  now rewrite <- stored_products, Hd, Ht.
Qed.

Lemma delete_missing s i :
  started s = true ->
  truthy (stored s i) = false ->
  delete i s = (Return false, s).
Proof.
  intros Hs Ht. unfold delete, bind. rewrite fetch_products by assumption.
  now rewrite <- stored_products, Ht.
Qed.


Lemma create_Return_inv s s1 e p :
  create e s = (Return p, s1) ->
  started s = true
  /\ truthy (stored s (product_id e)) = false
  /\ s1 = snd (insert "product" (product_id e) (asdict e) s).
Proof.
  intros H. destruct (started s) eqn:Hs.
  - destruct (truthy (stored s (product_id e))) eqn:Ht.
    + rewrite create_existing in H by assumption. discriminate.
    + rewrite create_fresh in H by assumption.
      injection H as _ <-. auto.
  - unfold started in Hs. unfold create, bind, fetch_collection in H.
    destruct (_data s); discriminate.
Qed.

Lemma remove_missing_collection s d c i :
  _data s = Some d -> Dict.get d c = None ->
  remove c i s = (Raise TypeError, s).
Proof. intros Hd Hc. unfold remove. now rewrite Hd, Hc. Qed.

Lemma remove_absent_document s d c coll i :
  _data s = Some d -> Dict.get d c = Some coll -> Dict.get coll i = None ->
  remove c i s = (Return false, s).
Proof.
  intros Hd Hc Hi. unfold remove, Dict.contains. now rewrite Hd, Hc, Hi.
Qed.

(** ** The store *)

(** C1, on the code: in a started store with no "product" collection,
    [remove("product", "1")] does not return false; the membership test on
    the missing collection raises [TypeError] and the store is left as it
    was.  (Where the collection exists and lacks the id,
    [remove_absent_document] gives false.) *)
Theorem remove_missing_collection_raises :
  started retrieve_product_repo = true
  /\ lookup retrieve_product_repo "product" "1" = None
  /\ remove "product" "1" retrieve_product_repo
     = (Raise TypeError, retrieve_product_repo).
Proof. repeat split. Qed.

(** C8: on a store that is not started (as built by the constructor, or
    after [stop]) [insert], [remove] and [fetch_collection] raise
    [ConnectionError] whatever their arguments; on a started store none of
    them raises it. *)
Theorem connection_error_iff_not_started
  (s : Database) (c i : string) (data : Document) :
  started Database_init = false
  /\ started (stop s) = false
  /\ (started s = false ->
        insert c i data s = (Raise ConnectionError, s)
        /\ remove c i s = (Raise ConnectionError, s)
        /\ fetch_collection c s = (Raise ConnectionError, s))
  /\ (started s = true ->
        fst (insert c i data s) <> Raise ConnectionError
        /\ fst (remove c i s) <> Raise ConnectionError
        /\ fst (fetch_collection c s) <> Raise ConnectionError).
Proof.
  split; [reflexivity|]. split; [reflexivity|].
  unfold started, insert, remove, fetch_collection.
  destruct (_data s) as [d|]; split; try discriminate; intros _.
  - repeat split; simpl; try discriminate.
    destruct (Dict.get d c) as [coll|]; simpl; [|discriminate].
    destruct (Dict.contains coll i); simpl; [|discriminate].
    destruct (Dict.del _ i); simpl; discriminate.
  - repeat split.
Qed.

Lemma connection_error_iff_not_started_witness :
  (insert "product" "1" (asdict product1) (stop retrieve_product_repo)
   = (Raise ConnectionError, stop retrieve_product_repo)
   /\ remove "product" "1" (stop retrieve_product_repo)
      = (Raise ConnectionError, stop retrieve_product_repo)
   /\ fetch_collection "product" (stop retrieve_product_repo)
      = (Raise ConnectionError, stop retrieve_product_repo))
  /\ (fst (insert "product" "1" (asdict product1) retrieve_product_repo)
      <> Raise ConnectionError
      /\ fst (remove "product" "1" retrieve_product_repo)
         <> Raise ConnectionError
      /\ fst (fetch_collection "product" retrieve_product_repo)
         <> Raise ConnectionError).
Proof.
  split.
  - apply (connection_error_iff_not_started
             (stop retrieve_product_repo) "product" "1" (asdict product1)).
    reflexivity.
  - apply (connection_error_iff_not_started
             retrieve_product_repo "product" "1" (asdict product1)).
    reflexivity.
Defined.

Lemma read_call_start s o : read_call o (start s) = start s.
Proof. destruct o; reflexivity. Qed.

Lemma read_run_start s ops : read_run ops (start s) = start s.
Proof.
  unfold read_run. induction ops as [|o ops IH]; simpl; [reflexivity|].
  now rewrite read_call_start.
Qed.

(** C9: [start] on any store, started and holding data or not, leaves it
    started with an empty top-level mapping, and [fetch_collection] then
    returns an empty collection for every name, also after any number of
    calls that insert nothing. *)
Theorem start_resets_store
  (s : Database) (ops : list read_op) (c : string) :
  started (start s) = true
  /\ _data (start s) = Some Dict.empty
  /\ fetch_collection c (read_run ops (start s))
     = (Return Dict.empty, start s).
Proof.
  repeat split. now rewrite read_run_start.
Qed.

(** ** The repository *)

(** C3: where the "product" collection of a started store has no document
    under [P.product_id], [create(P)] returns [P] and [find_by_id] on that id
    then returns a product equal to [P]. *)
Theorem create_find_by_id_roundtrip (s : Database) (P : Product) :
  started s = true ->
  stored s (product_id P) = None ->
  exists s',
    create P s = (Return P, s')
    /\ find_by_id (product_id P) s' = (Return P, s')
    /\ (create P;;; find_by_id (product_id P)) s = (Return P, s').
Proof.
  intros Hs Hn.
  assert (Hc : create P s
               = (Return P,
                  snd (insert "product" (product_id P) (asdict P) s))).
  { apply create_fresh; [assumption | now rewrite Hn]. }
  assert (Hf : find_by_id (product_id P)
                 (snd (insert "product" (product_id P) (asdict P) s))
               = (Return P,
                  snd (insert "product" (product_id P) (asdict P) s))).
  { rewrite (find_by_id_found _ _ (asdict P)).
    - now rewrite Product_kwargs_asdict.
    - now apply started_insert.
    - now apply lookup_insert_same.
    - reflexivity. }
  eexists. split; [exact Hc|]. split; [exact Hf|].
  unfold bind at 1. now rewrite Hc.
Qed.

Lemma create_find_by_id_roundtrip_witness :
  started retrieve_product_repo = true
  /\ stored retrieve_product_repo (product_id product1) = None
  /\ exists s',
       create product1 retrieve_product_repo = (Return product1, s')
       /\ find_by_id (product_id product1) s' = (Return product1, s')
       /\ (create product1;;; find_by_id (product_id product1))
            retrieve_product_repo = (Return product1, s').
Proof.
  split; [reflexivity|]. split; [reflexivity|].
  apply (create_find_by_id_roundtrip retrieve_product_repo product1);
    reflexivity.
Defined.

(** C4: once [create(P1)] has succeeded, [create(P2)] with the same
    [product_id] raises [DocumentAlreadyExists], leaves the store as it was,
    and the document under that id is the serialization of [P1]. *)
Theorem create_twice_already_exists
  (s s1 : Database) (P1 P2 : Product) :
  product_id P1 = product_id P2 ->
  create P1 s = (Return P1, s1) ->
  started s = true
  /\ create P2 s1 = (Raise DocumentAlreadyExists, s1)
  /\ stored s1 (product_id P1) = Some (asdict P1).
Proof.
  intros Hid Hc. apply create_Return_inv in Hc as (Hs & _ & ->).
  assert (Hst : stored (snd (insert "product" (product_id P1) (asdict P1) s))
                  (product_id P1) = Some (asdict P1))
    by now apply lookup_insert_same.
  split; [assumption|]. split; [|assumption].
  apply create_existing; [now apply started_insert|].
  now rewrite <- Hid, Hst.
Qed.

Lemma create_twice_already_exists_witness :
  product_id product1 = product_id (mkProduct "1" "Other" "" 0%float t0 t0)
  /\ create product1 retrieve_product_repo
     = (Return product1, snd (create product1 retrieve_product_repo))
  /\ create (mkProduct "1" "Other" "" 0%float t0 t0)
       (snd (create product1 retrieve_product_repo))
     = (Raise DocumentAlreadyExists,
        snd (create product1 retrieve_product_repo))
  /\ stored (snd (create product1 retrieve_product_repo)) "1"
     = Some (asdict product1).
Proof.
  split; [reflexivity|]. split; [reflexivity|].
  apply (create_twice_already_exists retrieve_product_repo
           (snd (create product1 retrieve_product_repo))
           product1 (mkProduct "1" "Other" "" 0%float t0 t0));
    reflexivity.
Defined.

(** C10: the existence checks test truth, not key presence.  Where the
    "product" collection of a started store maps [d] to an empty document,
    [find_by_id(d)] raises [DocumentNotFound], and [create] of an entity
    whose [product_id] is [d] succeeds and overwrites the empty document. *)
Theorem empty_document_is_not_found
  (s : Database) (d : string) (entity : Product) :
  started s = true ->
  stored s d = Some Dict.empty ->
  product_id entity = d ->
  find_by_id d s = (Raise DocumentNotFound, s)
  /\ exists s',
       create entity s = (Return entity, s')
       /\ stored s' d = Some (asdict entity).
Proof.
  intros Hs He <-. split.
  - apply find_by_id_missing; [assumption | now rewrite He].
  - eexists. split.
    + apply create_fresh; [assumption | now rewrite He].
    + now apply lookup_insert_same.
Qed.

Lemma empty_document_is_not_found_witness :
  started empty_document_store = true
  /\ stored empty_document_store "1" = Some Dict.empty
  /\ find_by_id "1" empty_document_store
     = (Raise DocumentNotFound, empty_document_store)
  /\ exists s',
       create product1 empty_document_store = (Return product1, s')
       /\ stored s' "1" = Some (asdict product1).
Proof.
  split; [reflexivity|]. split; [reflexivity|].
  apply (empty_document_is_not_found empty_document_store "1" product1);
    reflexivity.
Defined.

Lemma stored_started s i doc : stored s i = Some doc -> started s = true.
Proof.
  unfold stored, lookup, started. destruct (_data s); [reflexivity | discriminate].
Qed.

Lemma remove_present s i doc :
  stored s i = Some doc ->
  exists c',
    Dict.del (products s) i = Some c'
    /\ remove "product" i s = (Return true, snd (remove "product" i s))
    /\ started (snd (remove "product" i s)) = true
    /\ products (snd (remove "product" i s)) = c'.
Proof.
  unfold stored, lookup, products, remove, Dict.get_default.
  destruct (_data s) as [d|]; [|discriminate].
  destruct (Dict.get d "product") as [c|] eqn:Hc; [|discriminate].
  intros Hi. unfold Dict.contains. rewrite Hi.
  destruct (DictFacts.del_present c i) as [c' Hdel].
  { unfold Dict.contains. now rewrite Hi. }
  rewrite Hdel. exists c'. simpl. unfold Dict.get_default.
  now rewrite DictFacts.get_set_same.
Qed.

Lemma delete_present s i doc :
  stored s i = Some doc -> doc <> Dict.empty ->
  exists c',
    Dict.del (products s) i = Some c'
    /\ delete i s = (Return true, snd (delete i s))
    /\ started (snd (delete i s)) = true
    /\ products (snd (delete i s)) = c'.
Proof.
  intros Hi Hne.
  assert (Hd : delete i s = remove "product" i s).
  { unfold delete, bind.
    rewrite fetch_products by (eapply stored_started; eassumption).
    rewrite <- stored_products, Hi. now rewrite truthy_nonempty. }
  rewrite Hd. eapply remove_present; eassumption.
Qed.

Lemma wf_products s : Database_wf s = true -> Dict.wf (products s) = true.
Proof.
  unfold Database_wf, products, Dict.get_default.
  destruct (_data s) as [d|]; [|reflexivity].
  destruct (Dict.get d "product") as [c|] eqn:Hc; [|reflexivity].
  rewrite andb_true_iff, forallb_forall. intros [_ H].
  apply DictFacts.get_In in Hc.
  specialize (H c). unfold Collection_wf in H.
  rewrite andb_true_iff in H. apply H.
  unfold Dict.values. change c with (snd ("product", c)). now apply in_map.
Qed.

(** *** The calls keep the store well formed *)

Lemma values_set_In V (d : Dict.t V) k v x :
  In x (Dict.values (Dict.set d k v)) -> x = v \/ In x (Dict.values d).
Proof.
  unfold Dict.values. rewrite !in_map_iff. intros ([k' x'] & <- & Hin).
  apply DictFacts.set_In in Hin as [[= -> ->]|Hin]; [now left|].
  right. exists (k', x'). auto.
Qed.

Lemma values_del_In V (d d' : Dict.t V) k x :
  Dict.del d k = Some d' -> In x (Dict.values d') -> In x (Dict.values d).
Proof.
  unfold Dict.values. rewrite !in_map_iff. intros Hd ([k' x'] & <- & Hin).
  exists (k', x'). eauto using DictFacts.del_In.
Qed.

Lemma Collection_wf_set c i doc :
  Collection_wf c = true -> Dict.wf doc = true ->
  Collection_wf (Dict.set c i doc) = true.
Proof.
  unfold Collection_wf. rewrite !andb_true_iff, !forallb_forall.
  intros [Hc Hv] Hd. split; [now apply DictFacts.wf_set|].
  intros x Hx. apply values_set_In in Hx as [->|Hx]; auto.
Qed.

Lemma Collection_wf_del c i c' :
  Collection_wf c = true -> Dict.del c i = Some c' ->
  Collection_wf c' = true.
Proof.
  unfold Collection_wf. rewrite !andb_true_iff, !forallb_forall.
  intros [Hc Hv] Hd. split; [eauto using DictFacts.wf_del|].
  eauto using values_del_In.
Qed.

Lemma Collection_wf_get_default d c :
  forallb Collection_wf (Dict.values d) = true ->
  Collection_wf (Dict.get_default d c Dict.empty) = true.
Proof.
  rewrite forallb_forall. intros H. unfold Dict.get_default.
  destruct (Dict.get d c) as [coll|] eqn:E; [|reflexivity].
  apply H. apply DictFacts.get_In in E. unfold Dict.values.
  change coll with (snd (c, coll)). now apply in_map.
Qed.

Lemma data_wf_set d c coll :
  Dict.wf d && forallb Collection_wf (Dict.values d) = true ->
  Collection_wf coll = true ->
  Dict.wf (Dict.set d c coll)
  && forallb Collection_wf (Dict.values (Dict.set d c coll)) = true.
Proof.
  rewrite !andb_true_iff, !forallb_forall.
  intros [Hd Hv] Hc. split; [now apply DictFacts.wf_set|].
  intros x Hx. apply values_set_In in Hx as [->|Hx]; auto.
Qed.

Lemma insert_wf s c i doc :
  Database_wf s = true -> Dict.wf doc = true ->
  Database_wf (snd (insert c i doc s)) = true.
Proof.
  unfold Database_wf, insert. destruct (_data s) as [d|] eqn:E; simpl;
    [|now rewrite E].
  intros Hd Hdoc. apply data_wf_set; [assumption|].
  apply Collection_wf_set; [|assumption].
  apply Collection_wf_get_default. now apply andb_true_iff in Hd.
Qed.

Lemma remove_wf s c i :
  Database_wf s = true -> Database_wf (snd (remove c i s)) = true.
Proof.
  intros Hwf. unfold remove. destruct (_data s) as [d|] eqn:E; [|assumption].
  destruct (Dict.get d c) as [coll|]; [|assumption].
  destruct (Dict.contains coll i); [|assumption].
  destruct (Dict.del _ i) as [coll'|] eqn:Hdel; [|assumption].
  unfold Database_wf in *. rewrite E in Hwf. simpl.
  apply data_wf_set; [assumption|].
  eapply Collection_wf_del; [|eassumption].
  apply Collection_wf_get_default. now apply andb_true_iff in Hwf.
Qed.

Lemma asdict_wf e : Dict.wf (asdict e) = true.
Proof. reflexivity. Qed.

(** C2, as the code has it: where the "product" collection holds a non-empty
    document under [doc_id] and [entity.product_id] is another id,
    [update(doc_id, entity)] returns [entity], stores its serialization under
    [entity.product_id] and leaves the document under [doc_id] as it was. *)
Theorem update_mismatched_id_adds_document
  (s : Database) (doc_id : string) (doc : Document) (entity : Product) :
  stored s doc_id = Some doc ->
  doc <> Dict.empty ->
  product_id entity <> doc_id ->
  update_adds_second_document s doc_id entity.
Proof.
  intros Hd Hne Hid. pose proof (stored_started _ _ _ Hd) as Hs.
  exists (snd (insert "product" (product_id entity) (asdict entity) s)).
  split; [|split].
  - apply update_found; [assumption|].
    rewrite Hd. now apply truthy_nonempty.
  - now apply lookup_insert_same.
  - apply lookup_insert_other. congruence.
Qed.

Lemma update_mismatched_id_adds_document_witness :
  stored store_with_product2 "2" = Some (asdict product2)
  /\ asdict product2 <> Dict.empty
  /\ product_id product1 <> "2"
  /\ update_adds_second_document store_with_product2 "2" product1.
Proof.
  split; [reflexivity|]. split; [discriminate|]. split; [discriminate|].
  apply (update_mismatched_id_adds_document
           store_with_product2 "2" (asdict product2) product1);
    [reflexivity | discriminate | discriminate].
Defined.

(** C2, as stated, fails where the document under [doc_id] is empty: the
    collection contains a document under "1", the entity has another id, and
    [update] raises [DocumentNotFound] and stores nothing. *)
Lemma update_empty_document_counterexample :
  started empty_document_store = true
  /\ stored empty_document_store "1" = Some Dict.empty
  /\ product_id product2 <> "1"
  /\ update "1" product2 empty_document_store
     = (Raise DocumentNotFound, empty_document_store)
  /\ ~ update_adds_second_document empty_document_store "1" product2.
Proof.
  split; [reflexivity|]. split; [reflexivity|]. split; [discriminate|].
  split; [reflexivity|].
  intros (s' & H & _). discriminate H.
Qed.

(** C6, as the code has it: in a started store (a Python state: no dict
    holds a key twice), [delete(id)] on an id with no document returns false
    and raises nothing; on an id with a non-empty document it returns true,
    and [find_by_id(id)] then raises [DocumentNotFound]. *)
Theorem delete_asymmetry (s : Database) (doc_id : string) :
  started s = true ->
  Database_wf s = true ->
  (stored s doc_id = None -> delete doc_id s = (Return false, s))
  /\ (forall doc,
        stored s doc_id = Some doc -> doc <> Dict.empty ->
        delete_then_not_found s doc_id).
Proof.
  intros Hs Hwf. split.
  - intros Hn. apply delete_missing; [assumption | now rewrite Hn].
  - intros doc Hd Hne.
    destruct (delete_present _ _ _ Hd Hne) as (c' & Hdel & Hr & Hs' & Hp).
    exists (snd (delete doc_id s)). split; [assumption|].
    apply find_by_id_missing; [assumption|].
    rewrite stored_products, Hp.
    rewrite (DictFacts.get_del_same (products s) doc_id);
      auto using wf_products.
Qed.

Lemma delete_asymmetry_witness :
  (stored store_with_product2 "1" = None
   /\ delete "1" store_with_product2 = (Return false, store_with_product2))
  /\ (stored store_with_product2 "2" = Some (asdict product2)
      /\ delete_then_not_found store_with_product2 "2").
Proof.
  split.
  - split; [reflexivity|].
    apply (delete_asymmetry store_with_product2 "1");
      reflexivity.
  - split; [reflexivity|].
    apply (proj2 (delete_asymmetry store_with_product2 "2"
                    eq_refl eq_refl) (asdict product2));
      [reflexivity | discriminate].
Defined.

(** C6, as stated, fails where the document under the id is empty: the
    document is present, yet [delete] returns false and removes nothing. *)
Lemma delete_empty_document_counterexample :
  started empty_document_store = true
  /\ Database_wf empty_document_store = true
  /\ stored empty_document_store "1" = Some Dict.empty
  /\ delete "1" empty_document_store = (Return false, empty_document_store)
  /\ ~ delete_then_not_found empty_document_store "1".
Proof.
  repeat (split; [reflexivity|]).
  intros (s' & H & _). discriminate H.
Qed.

(** ** Sequences of calls *)

Lemma run_app ops1 ops2 s : run (ops1 ++ ops2) s = run ops2 (run ops1 s).
Proof. revert s. induction ops1; simpl; auto. Qed.

Lemma trace_app ops1 ops2 s :
  trace (ops1 ++ ops2) s = trace ops1 s ++ trace ops2 (run ops1 s).
Proof. revert s. induction ops1; simpl; intros; [|f_equal]; auto. Qed.

Lemma snd_bind_ret A B (m : M A) (g : A -> B) s :
  snd ((x <- m;; ret (g x)) s) = snd (m s).
Proof. unfold bind, ret. now destruct (m s) as [[a|e|] s']. Qed.

Lemma call_not_started o s : started s = false -> snd (call o s) = s.
Proof.
  unfold started. destruct (_data s) eqn:E; [discriminate|]. intros _.
  destruct o; simpl; rewrite snd_bind_ret;
    unfold create, update, delete, find_by_id, find_all, bind,
      fetch_collection; now rewrite E.
Qed.

Lemma find_by_id_state i s : snd (find_by_id i s) = s.
Proof.
  unfold find_by_id, bind, fetch_collection, pure, raise.
  destruct (_data s); [|reflexivity].
  destruct (truthy _); [|reflexivity].
  now destruct (Dict.get _ i).
Qed.

Lemma find_all_state s : snd (find_all s) = s.
Proof.
  unfold find_all, bind, fetch_collection, pure, raise.
  destruct (_data s); [|reflexivity].
  now destruct (Nat.eqb _ 0).
Qed.

Lemma keyed_asdict e : keyed (product_id e, asdict e) = true.
Proof. unfold keyed. simpl. apply String.eqb_refl. Qed.

Lemma keyed_set coll k doc :
  forallb keyed coll = true -> keyed (k, doc) = true ->
  forallb keyed (Dict.set coll k doc) = true.
Proof.
  rewrite !forallb_forall. intros Hc Hk [k' doc'] Hin.
  apply DictFacts.set_In in Hin as [->|Hin]; auto.
Qed.

Lemma keyed_del coll k coll' :
  forallb keyed coll = true -> Dict.del coll k = Some coll' ->
  forallb keyed coll' = true.
Proof.
  rewrite !forallb_forall. intros Hc Hd [k' doc'] Hin.
  eauto using DictFacts.del_In.
Qed.

Lemma keyed_insert_asdict s e :
  started s = true -> keyed_by_product_id s = true ->
  keyed_by_product_id
    (snd (insert "product" (product_id e) (asdict e) s)) = true.
Proof.
  intros Hs Hk. unfold keyed_by_product_id. rewrite products_insert by easy.
  apply keyed_set; [assumption | apply keyed_asdict].
Qed.

Lemma call_keeps_keyed o s :
  keyed_by_product_id s = true -> keyed_by_product_id (snd (call o s)) = true.
Proof.
  intros Hk. destruct (started s) eqn:Hs;
    [|now rewrite call_not_started].
  destruct o as [e|i e|i|i|]; simpl; rewrite snd_bind_ret.
  - destruct (truthy (stored s (product_id e))) eqn:Ht.
    + now rewrite create_existing.
    + rewrite create_fresh by assumption. now apply keyed_insert_asdict.
  - destruct (truthy (stored s i)) eqn:Ht.
    + rewrite update_found by assumption. now apply keyed_insert_asdict.
    + now rewrite update_missing.
  - destruct (stored s i) as [[|f fs]|] eqn:Hd.
    + rewrite delete_missing; [assumption .. |]. now rewrite Hd.
    + destruct (delete_present s i (f :: fs)) as (c' & Hdel & _ & _ & Hp);
        [assumption | discriminate |].
      unfold keyed_by_product_id. rewrite Hp.
      eapply keyed_del; eassumption.
    + rewrite delete_missing; [assumption .. |]. now rewrite Hd.
  - now rewrite find_by_id_state.
  - now rewrite find_all_state.
Qed.

Lemma call_keeps_wf o s :
  Database_wf s = true -> Database_wf (snd (call o s)) = true.
Proof.
  intros Hwf. destruct (started s) eqn:Hs;
    [|now rewrite call_not_started].
  destruct o as [e|i e|i|i|]; simpl; rewrite snd_bind_ret.
  - destruct (truthy (stored s (product_id e))) eqn:Ht.
    + now rewrite create_existing.
    + rewrite create_fresh by assumption.
      apply insert_wf; [assumption | apply asdict_wf].
  - destruct (truthy (stored s i)) eqn:Ht.
    + rewrite update_found by assumption.
      apply insert_wf; [assumption | apply asdict_wf].
    + now rewrite update_missing.
  - unfold delete, bind. rewrite fetch_products by assumption.
    destruct (truthy _); [now apply remove_wf | assumption].
  - now rewrite find_by_id_state.
  - now rewrite find_all_state.
Qed.

(** Every store the repository reaches from a fresh start is a Python
    state. *)
Lemma run_keeps_wf ops s :
  Database_wf s = true -> Database_wf (run ops s) = true.
Proof.
  revert s. induction ops as [|o ops IH]; simpl; intros s Hwf;
    [assumption|].
  apply IH. now apply call_keeps_wf.
Qed.

(** C5: the repository keeps document id == [product_id].  Where every
    document of the "product" collection is keyed by the [product_id] it
    holds, it is so again after any sequence of [create], [update],
    [delete], [find_by_id] and [find_all]; a freshly started store is such a
    store. *)
Theorem product_id_invariant (s : Database) (ops : list op) :
  keyed_by_product_id s = true ->
  keyed_by_product_id (run ops s) = true.
Proof.
  revert s. induction ops as [|o ops IH]; simpl; intros s Hk.
  - assumption.
  - apply IH. now apply call_keeps_keyed.
Qed.

Lemma product_id_invariant_witness :
  keyed_by_product_id retrieve_product_repo = true
  /\ keyed_by_product_id
       (run [Create product1; Create product2; Update "1" product2;
             FindAll; Delete "1"; FindById "2"; Update "2" product1]
          retrieve_product_repo) = true.
Proof.
  split; [reflexivity|].
  apply (product_id_invariant retrieve_product_repo); reflexivity.
Defined.

(** ** Counting *)

Lemma keys_entries qs : Dict.keys (entries qs) = map product_id qs.
Proof. unfold Dict.keys, entries. rewrite map_map. reflexivity. Qed.

Lemma get_entries_absent qs i :
  ~ In i (map product_id qs) -> Dict.get (entries qs) i = None.
Proof. intros H. apply DictFacts.get_None_keys. now rewrite keys_entries. Qed.

Lemma get_entries_present qs i :
  In i (map product_id qs) ->
  exists q, Dict.get (entries qs) i = Some (asdict q).
Proof.
  induction qs as [|q qs IH]; simpl; [tauto|].
  destruct (String.eqb i (product_id q)) eqn:E; [eauto|].
  apply String.eqb_neq in E. intros [H|H]; [congruence | auto].
Qed.

Lemma entries_app qs ps : entries (qs ++ ps) = entries qs ++ entries ps.
Proof. apply map_app. Qed.

Lemma del_entries qs i :
  NoDup (map product_id qs) -> In i (map product_id qs) ->
  exists qs',
    Dict.del (entries qs) i = Some (entries qs')
    /\ S (List.length qs') = List.length qs
    /\ NoDup (map product_id qs')
    /\ (forall x, In x (map product_id qs') -> In x (map product_id qs))
    /\ (forall x, In x (map product_id qs) -> x <> i ->
                  In x (map product_id qs')).
Proof.
  induction qs as [|q qs IH]; simpl; [tauto|].
  intros Hnd Hin. inversion Hnd as [|? ? Hq Hnd']; subst.
  destruct (String.eqb i (product_id q)) eqn:E.
  - apply String.eqb_eq in E. subst i. exists qs.
    repeat split; auto. intros x [Hx|Hx] Hne; [congruence | assumption].
  - apply String.eqb_neq in E. destruct Hin as [Hin|Hin]; [congruence|].
    destruct (IH Hnd' Hin) as (qs' & -> & Hlen & Hnd'' & Hsub & Hsup).
    exists (q :: qs'). simpl. repeat split; auto.
    + constructor; auto.
    + intros x [Hx|Hx]; auto.
    + intros x [Hx|Hx] Hne; auto.
Qed.

Lemma comprehension_entries qs :
  comprehension Product_kwargs (Dict.values (entries qs)) = Return qs.
Proof.
  induction qs as [|q qs IH]; [reflexivity|].
  unfold Dict.values in *. cbn [entries map snd comprehension].
  rewrite Product_kwargs_asdict. fold (entries qs). now rewrite IH.
Qed.

Lemma find_all_entries s qs :
  started s = true -> products s = entries qs ->
  find_all s
  = (match qs with [] => Raise DocumentNotFound | _ :: _ => Return qs end, s).
Proof.
  intros Hs Hp. unfold find_all, bind. rewrite fetch_products by assumption.
  rewrite Hp. destruct qs as [|q qs]; [reflexivity|].
  cbn [entries map Dict.len List.length Nat.eqb]. unfold pure.
  now rewrite <- (comprehension_entries (q :: qs)).
Qed.

Lemma run_creates ps :
  forall s qs,
    started s = true -> products s = entries qs ->
    NoDup (map product_id (qs ++ ps)) ->
    started (run (map Create ps) s) = true
    /\ products (run (map Create ps) s) = entries (qs ++ ps)
    /\ trace (map Create ps) s = map (fun p => Return (AProduct p)) ps.
Proof.
  induction ps as [|p ps IH]; intros s qs Hs Hp Hnd.
  - rewrite app_nil_r. auto.
  - assert (Hfresh : stored s (product_id p) = None).
    { rewrite stored_products, Hp. apply get_entries_absent.
      rewrite map_app in Hnd. simpl in Hnd.
      apply NoDup_remove_2 in Hnd. rewrite in_app_iff in Hnd. tauto. }
    assert (Hc : create p s
                 = (Return p,
                    snd (insert "product" (product_id p) (asdict p) s))).
    { apply create_fresh; [assumption | now rewrite Hfresh]. }
    assert (Hcall : call (Create p) s
                    = (Return (AProduct p),
                       snd (insert "product" (product_id p) (asdict p) s))).
    { simpl. unfold bind. now rewrite Hc. }
    cbn [map run trace]. rewrite !Hcall. cbn [fst snd].
    destruct (IH (snd (insert "product" (product_id p) (asdict p) s))
                (qs ++ [p])) as (Hs' & Hp' & Ht').
    + now apply started_insert.
    + rewrite products_insert, Hp by assumption.
      rewrite DictFacts.set_absent, entries_app; [reflexivity|].
      rewrite <- Hp, <- stored_products. assumption.
    + now rewrite <- app_assoc.
    + rewrite <- app_assoc in Hp'. simpl in Hp'.
      repeat split; try assumption. now rewrite Ht'.
Qed.

Lemma run_deletes ids :
  forall s qs,
    started s = true -> products s = entries qs ->
    NoDup (map product_id qs) -> NoDup ids ->
    (forall i, In i ids -> In i (map product_id qs)) ->
    exists qs',
      started (run (map Delete ids) s) = true
      /\ products (run (map Delete ids) s) = entries qs'
      /\ List.length qs' + List.length ids = List.length qs
      /\ trace (map Delete ids) s = map (fun _ => Return (ABool true)) ids.
Proof.
  induction ids as [|i ids IH]; intros s qs Hs Hp Hq Hnd Hsub.
  - exists qs. simpl. auto using Nat.add_0_r.
  - inversion Hnd as [|? ? Hi Hnd']; subst.
    destruct (get_entries_present qs i) as [q Hget]; [apply Hsub; now left|].
    assert (Hst : stored s i = Some (asdict q))
      by now rewrite stored_products, Hp.
    destruct (delete_present s i (asdict q) Hst) as (c' & Hdel & Hd & Hs' & Hp');
      [discriminate|].
    destruct (del_entries qs i Hq) as (qs1 & Hdel' & Hlen & Hq1 & _ & Hsup);
      [apply Hsub; now left|].
    rewrite Hp, Hdel' in Hdel. injection Hdel as <-.
    assert (Hcall : call (Delete i) s
                    = (Return (ABool true), snd (delete i s))).
    { simpl. unfold bind. now rewrite Hd. }
    cbn [map run trace]. rewrite !Hcall. cbn [fst snd].
    destruct (IH (snd (delete i s)) qs1 Hs' Hp' Hq1 Hnd')
      as (qs' & Hs2 & Hp2 & Hlen2 & Ht2).
    + intros j Hj. apply Hsup; [apply Hsub; now right|].
      intros ->. contradiction.
    + exists qs'. repeat split; try assumption.
      * simpl. lia.
      * now rewrite Ht2.
Qed.

Lemma subset_In ids all :
  subset ids all = true -> forall i, In i ids -> In i all.
Proof.
  unfold subset. rewrite forallb_forall. intros H i Hi.
  now apply DictFacts.existsb_eqb, H.
Qed.

(** C7, as the code has it: in a started store whose "product" collection
    holds nothing, creating N products with pairwise distinct ids and then
    deleting M of those ids succeeds call by call, and [find_all] then
    returns a list of N - M products when N - M > 0 and raises
    [DocumentNotFound] when N - M = 0. *)
Theorem find_all_counts_created_minus_deleted
  (s : Database) (ps : list Product) (ids : list string) :
  started s = true ->
  products s = Dict.empty ->
  Dict.distinct (map product_id ps) = true ->
  Dict.distinct ids = true ->
  subset ids (map product_id ps) = true ->
  trace (create_then_delete ps ids) s
  = map (fun p => Return (AProduct p)) ps
    ++ map (fun _ => Return (ABool true)) ids
  /\ find_all_counts (List.length ps) (List.length ids)
       (run (create_then_delete ps ids) s).
Proof.
  intros Hs Hp Hps Hids Hsub.
  apply DictFacts.distinct_NoDup in Hps, Hids.
  destruct (run_creates ps s [] Hs Hp Hps) as (Hs1 & Hp1 & Ht1).
  simpl in Hp1.
  destruct (run_deletes ids (run (map Create ps) s) ps Hs1 Hp1 Hps Hids
              (subset_In _ _ Hsub)) as (qs' & Hs2 & Hp2 & Hlen & Ht2).
  unfold create_then_delete. rewrite trace_app, run_app, Ht1, Ht2.
  split; [reflexivity|].
  pose proof (find_all_entries _ qs' Hs2 Hp2) as Hf.
  unfold find_all_counts. split.
  - intros Hpos. exists qs'. split; [|lia].
    rewrite Hf. destruct qs'; [simpl in Hlen; lia | reflexivity].
  - intros Hz. rewrite Hf. destruct qs'; [reflexivity | simpl in Hlen; lia].
Qed.

Lemma find_all_counts_created_minus_deleted_witness :
  (started retrieve_product_repo = true
   /\ products retrieve_product_repo = Dict.empty
   /\ Dict.distinct (map product_id [product1; product2]) = true
   /\ Dict.distinct ["2"] = true
   /\ subset ["2"] (map product_id [product1; product2]) = true)
  /\ trace (create_then_delete [product1; product2] ["2"])
       retrieve_product_repo
     = [Return (AProduct product1); Return (AProduct product2);
        Return (ABool true)]
  /\ find_all_counts 2 1
       (run (create_then_delete [product1; product2] ["2"])
          retrieve_product_repo).
Proof.
  split; [repeat split|].
  apply (find_all_counts_created_minus_deleted
           retrieve_product_repo [product1; product2] ["2"]);
    reflexivity.
Defined.

(** C7, as stated, fails on a started store that holds a product already:
    one product is created and deleted, both calls succeed, N - M = 0, and
    [find_all] returns the product that was there instead of raising. *)
Lemma find_all_counts_counterexample :
  started store_with_product2 = true
  /\ Dict.distinct (map product_id [product1]) = true
  /\ subset ["1"] (map product_id [product1]) = true
  /\ trace (create_then_delete [product1] ["1"]) store_with_product2
     = [Return (AProduct product1); Return (ABool true)]
  /\ find_all (run (create_then_delete [product1] ["1"]) store_with_product2)
     = (Return [product2],
        run (create_then_delete [product1] ["1"]) store_with_product2)
  /\ ~ find_all_counts 1 1
         (run (create_then_delete [product1] ["1"]) store_with_product2).
Proof.
  repeat (split; [reflexivity|]).
  intros [_ H]. specialize (H eq_refl). discriminate H.
Qed.

(** * Further properties of the store *)

Lemma lookup_insert_other_collection s c c' i i' doc :
  c' <> c -> lookup (snd (insert c i doc s)) c' i' = lookup s c' i'.
Proof.
  intros Hne. unfold insert, lookup.
  destruct (_data s) eqn:E; simpl; [|now rewrite E].
  unfold Dict.get_default at 1.
  now rewrite DictFacts.get_set_other.
Qed.

Lemma pair_neq_cases (c c' i i' : string) :
  (c', i') <> (c, i) -> c' <> c \/ (c' = c /\ i' <> i).
Proof.
  intros H. destruct (String.eqb c' c) eqn:E.
  - apply String.eqb_eq in E. right. split; [assumption|].
    intros ->. apply H. now subst.
  - apply String.eqb_neq in E. now left.
Qed.

(** [insert] on a started store returns true, the document is then read
    back under its collection and id, and every other document of every
    collection reads as before. *)
Theorem insert_then_lookup
  (s : Database) (c i : string) (doc : Document) :
  started s = true ->
  fst (insert c i doc s) = Return true
  /\ started (snd (insert c i doc s)) = true
  /\ lookup (snd (insert c i doc s)) c i = Some doc
  /\ forall c' i', (c', i') <> (c, i) ->
       lookup (snd (insert c i doc s)) c' i' = lookup s c' i'.
Proof.
  intros Hs. split; [now apply fst_insert|].
  split; [now apply started_insert|].
  split; [now apply lookup_insert_same|].
  intros c' i' Hne.
  destruct (pair_neq_cases _ _ _ _ Hne) as [Hc|[-> Hi]].
  - now apply lookup_insert_other_collection.
  - now apply lookup_insert_other.
Qed.

Lemma insert_then_lookup_witness :
  started store_with_product2 = true
  /\ fst (insert "order" "7" [("x", VInt 1)] store_with_product2)
     = Return true
  /\ lookup (snd (insert "order" "7" [("x", VInt 1)] store_with_product2))
       "order" "7" = Some [("x", VInt 1)]
  /\ lookup (snd (insert "order" "7" [("x", VInt 1)] store_with_product2))
       "product" "2" = Some (asdict product2).
Proof.
  split; [reflexivity|].
  destruct (insert_then_lookup store_with_product2 "order" "7"
              [("x", VInt 1)] eq_refl) as (H1 & _ & H3 & H4).
  split; [exact H1|]. split; [exact H3|].
  rewrite (H4 "product" "2"); [reflexivity | discriminate].
Defined.

(** [insert] is an upsert that keeps the iteration order: a collection or a
    document that exists keeps its place, a new one goes last. *)
Theorem insert_keeps_order
  (s : Database) (d : DatabaseData) (c i : string) (doc : Document) :
  data s = Some d ->
  exists d',
    data (snd (insert c i doc s)) = Some d'
    /\ Dict.keys d'
       = (if Dict.contains d c then Dict.keys d else Dict.keys d ++ [c])
    /\ Dict.keys (Dict.get_default d' c Dict.empty)
       = (if Dict.contains (Dict.get_default d c Dict.empty) i
          then Dict.keys (Dict.get_default d c Dict.empty)
          else Dict.keys (Dict.get_default d c Dict.empty) ++ [i]).
Proof.
  unfold data, insert. intros ->. simpl. eexists. split; [reflexivity|].
  split; [apply DictFacts.keys_set|].
  unfold Dict.get_default at 1. rewrite DictFacts.get_set_same.
  apply DictFacts.keys_set.
Qed.

Lemma insert_keeps_order_witness :
  exists d',
    data (snd (insert "product" "1" (asdict product1) store_with_product2))
    = Some d'
    /\ Dict.keys d' = ["product"]
    /\ Dict.keys (Dict.get_default d' "product" Dict.empty) = ["2"; "1"].
Proof.
  destruct (insert_keeps_order store_with_product2
              [("product", [("2", asdict product2)])]
              "product" "1" (asdict product1) eq_refl)
    as (d' & H1 & H2 & H3).
  exists d'. auto.
Defined.

Lemma remove_present_any s c i doc :
  lookup s c i = Some doc ->
  exists d coll coll',
    _data s = Some d
    /\ Dict.get d c = Some coll
    /\ Dict.del coll i = Some coll'
    /\ remove c i s
       = (Return true, mkDatabase (Some (Dict.set d c coll'))).
Proof.
  unfold lookup, remove, Dict.get_default.
  destruct (_data s) as [d|]; [|discriminate].
  destruct (Dict.get d c) as [coll|] eqn:Hc; [|discriminate].
  intros Hi. unfold Dict.contains. rewrite Hi.
  destruct (DictFacts.del_present coll i) as [coll' Hdel].
  { unfold Dict.contains. now rewrite Hi. }
  rewrite Hdel. exists d, coll, coll'. auto.
Qed.

Lemma wf_collection s d c coll :
  Database_wf s = true -> _data s = Some d -> Dict.get d c = Some coll ->
  Dict.wf coll = true.
Proof.
  unfold Database_wf. intros Hwf Hd Hc. rewrite Hd in Hwf.
  apply andb_true_iff in Hwf as [_ Hwf].
  pose proof (Collection_wf_get_default d c Hwf) as H.
  unfold Dict.get_default in H. rewrite Hc in H.
  unfold Collection_wf in H. now apply andb_true_iff in H.
Qed.

(** [remove] of a document that is there returns true, the document is
    gone afterwards and every other document of every collection reads as
    before. *)
Theorem remove_then_lookup
  (s : Database) (c i : string) (doc : Document) :
  Database_wf s = true ->
  lookup s c i = Some doc ->
  fst (remove c i s) = Return true
  /\ started (snd (remove c i s)) = true
  /\ lookup (snd (remove c i s)) c i = None
  /\ forall c' i', (c', i') <> (c, i) ->
       lookup (snd (remove c i s)) c' i' = lookup s c' i'.
Proof.
  intros Hwf Hl.
  destruct (remove_present_any s c i doc Hl)
    as (d & coll & coll' & Hd & Hc & Hdel & Hr).
  rewrite Hr. cbn [fst snd]. split; [reflexivity|].
  split; [reflexivity|].
  unfold lookup. cbn [_data]. rewrite Hd. split.
  - unfold Dict.get_default. rewrite DictFacts.get_set_same.
    eapply DictFacts.get_del_same; [|eassumption].
    eapply wf_collection; eassumption.
  - intros c' i' Hne. unfold Dict.get_default.
    destruct (pair_neq_cases _ _ _ _ Hne) as [Hne'|[-> Hi]].
    + now rewrite DictFacts.get_set_other.
    + rewrite DictFacts.get_set_same, Hc.
      eapply DictFacts.get_del_other; eassumption.
Qed.

Lemma remove_then_lookup_witness :
  Database_wf (snd (create product1 store_with_product2)) = true
  /\ lookup (snd (create product1 store_with_product2)) "product" "2"
     = Some (asdict product2)
  /\ fst (remove "product" "2" (snd (create product1 store_with_product2)))
     = Return true
  /\ lookup
       (snd (remove "product" "2" (snd (create product1 store_with_product2))))
       "product" "2" = None
  /\ lookup
       (snd (remove "product" "2" (snd (create product1 store_with_product2))))
       "product" "1" = Some (asdict product1).
Proof.
  split; [reflexivity|]. split; [reflexivity|].
  destruct (remove_then_lookup (snd (create product1 store_with_product2))
              "product" "2" (asdict product2) eq_refl eq_refl)
    as (H1 & _ & H3 & H4).
  split; [exact H1|]. split; [exact H3|].
  rewrite (H4 "product" "1"); [reflexivity | discriminate].
Defined.

(** What [remove] gives on a started store: [TypeError] where the
    collection is missing, otherwise whether the document was there; never
    [KeyError] nor [ConnectionError].  Where nothing was there the store is
    left as it was. *)
Theorem remove_outcome (s : Database) (c i : string) :
  started s = true ->
  fst (remove c i s)
  = (if has_collection s c then Return (is_some (lookup s c i))
     else Raise TypeError)
  /\ (is_some (lookup s c i) = false -> snd (remove c i s) = s).
Proof.
  unfold started, has_collection, lookup, remove, Dict.get_default,
    Dict.contains.
  destruct (_data s) as [d|]; [|discriminate]. intros _.
  destruct (Dict.get d c) as [coll|]; [|split; reflexivity].
  destruct (Dict.get coll i) as [doc|] eqn:Hi; [|split; reflexivity].
  destruct (DictFacts.del_present coll i) as [coll' ->].
  { unfold Dict.contains. now rewrite Hi. }
  split; [reflexivity | discriminate].
Qed.

Lemma remove_outcome_witness :
  started store_with_product2 = true
  /\ fst (remove "product" "2" store_with_product2) = Return true
  /\ fst (remove "product" "1" store_with_product2) = Return false
  /\ fst (remove "order" "1" store_with_product2) = Raise TypeError
  /\ snd (remove "product" "1" store_with_product2) = store_with_product2.
Proof.
  split; [reflexivity|].
  split; [exact (proj1 (remove_outcome store_with_product2
                          "product" "2" eq_refl))|].
  split; [exact (proj1 (remove_outcome store_with_product2
                          "product" "1" eq_refl))|].
  split; [exact (proj1 (remove_outcome store_with_product2
                          "order" "1" eq_refl))|].
  exact (proj2 (remove_outcome store_with_product2 "product" "1" eq_refl)
           eq_refl).
Defined.

(** * Further properties of the repository *)

Lemma fst_bind_ret A B (m : M A) (g : A -> B) s :
  fst ((x <- m;; ret (g x)) s)
  = match fst (m s) with
    | Return a => Return (g a)
    | Raise e => Raise e
    | Untyped => Untyped
    end.
Proof. unfold bind, ret. now destruct (m s) as [[a|e|] s']. Qed.

Lemma delete_outcome s i :
  started s = true -> fst (delete i s) = Return (truthy (stored s i)).
Proof.
  intros Hs. destruct (stored s i) as [[|f fs]|] eqn:Hd.
  - rewrite delete_missing; [reflexivity | assumption | now rewrite Hd].
  - destruct (delete_present s i (f :: fs)) as (_ & _ & -> & _);
      [assumption | discriminate | reflexivity].
  - rewrite delete_missing; [reflexivity | assumption | now rewrite Hd].
Qed.

(** [delete] on a started store never raises: it returns true where a
    non-empty document is stored under the id and false otherwise.  The
    [TypeError] of [Database.remove] on a missing collection cannot come
    through it. *)
Theorem delete_never_raises (s : Database) (doc_id : string) :
  started s = true ->
  fst (delete doc_id s) = Return (truthy (stored s doc_id))
  /\ (truthy (stored s doc_id) = false -> snd (delete doc_id s) = s).
Proof.
  intros Hs. split; [now apply delete_outcome|].
  intros Ht. now rewrite delete_missing.
Qed.

Lemma delete_never_raises_witness :
  started retrieve_product_repo = true
  /\ fst (delete "1" retrieve_product_repo) = Return false
  /\ snd (delete "1" retrieve_product_repo) = retrieve_product_repo
  /\ fst (delete "2" store_with_product2) = Return true.
Proof.
  split; [reflexivity|].
  split; [exact (proj1 (delete_never_raises retrieve_product_repo "1"
                          eq_refl))|].
  split; [exact (proj2 (delete_never_raises retrieve_product_repo "1"
                          eq_refl) eq_refl)|].
  exact (proj1 (delete_never_raises store_with_product2 "2" eq_refl)).
Defined.

(** On a store that is not started every repository method raises the
    store's [ConnectionError] and leaves the store as it was. *)
Theorem repository_not_connected
  (s : Database) (doc_id : string) (entity : Product) :
  started s = false ->
  create entity s = (Raise ConnectionError, s)
  /\ update doc_id entity s = (Raise ConnectionError, s)
  /\ delete doc_id s = (Raise ConnectionError, s)
  /\ find_by_id doc_id s = (Raise ConnectionError, s)
  /\ find_all s = (Raise ConnectionError, s).
Proof.
  unfold started, create, update, delete, find_by_id, find_all, bind,
    fetch_collection.
  destruct (_data s); [discriminate|]. intros _. repeat split.
Qed.

Lemma repository_not_connected_witness :
  started (stop store_with_product2) = false
  /\ create product1 (stop store_with_product2)
     = (Raise ConnectionError, stop store_with_product2)
  /\ find_by_id "2" (stop store_with_product2)
     = (Raise ConnectionError, stop store_with_product2)
  /\ find_all Database_init = (Raise ConnectionError, Database_init).
Proof.
  split; [reflexivity|].
  split; [apply (repository_not_connected (stop store_with_product2)
                   "2" product1 eq_refl)|].
  split; [apply (repository_not_connected (stop store_with_product2)
                   "2" product1 eq_refl)|].
  apply (repository_not_connected Database_init "2" product1 eq_refl).
Defined.

(** A repository call that raises has written nothing: the store is left
    exactly as it was. *)
Theorem exception_leaves_store (o : op) (s : Database) (e : exn) :
  fst (call o s) = Raise e -> snd (call o s) = s.
Proof.
  destruct (started s) eqn:Hs; [|intros _; now apply call_not_started].
  destruct o as [p|i p|i|i|]; simpl;
    rewrite fst_bind_ret, snd_bind_ret; intros H.
  - destruct (truthy (stored s (product_id p))) eqn:Ht.
    + now rewrite create_existing.
    + rewrite create_fresh in H by assumption. discriminate.
  - destruct (truthy (stored s i)) eqn:Ht.
    + rewrite update_found in H by assumption. discriminate.
    + now rewrite update_missing.
  - rewrite delete_outcome in H by assumption. discriminate.
  - apply find_by_id_state.
  - apply find_all_state.
Qed.

Lemma exception_leaves_store_witness :
  fst (call (Create product2) store_with_product2)
  = Raise DocumentAlreadyExists
  /\ snd (call (Create product2) store_with_product2) = store_with_product2
  /\ fst (call (Update "1" product1) store_with_product2)
     = Raise DocumentNotFound
  /\ snd (call (Update "1" product1) store_with_product2)
     = store_with_product2.
Proof.
  split; [reflexivity|].
  split; [apply (exception_leaves_store (Create product2)
                   store_with_product2 DocumentAlreadyExists eq_refl)|].
  split; [reflexivity|].
  apply (exception_leaves_store (Update "1" product1)
           store_with_product2 DocumentNotFound eq_refl).
Defined.

Lemma lookup_remove_other s c i c' i' :
  (c', i') <> (c, i) ->
  lookup (snd (remove c i s)) c' i' = lookup s c' i'.
Proof.
  intros Hne. unfold remove, lookup.
  destruct (_data s) as [d|] eqn:Hd; cbn [snd]; [|now rewrite Hd].
  destruct (Dict.get d c) as [coll|] eqn:Hc; cbn [snd]; [|now rewrite Hd].
  destruct (Dict.contains coll i); cbn [snd]; [|now rewrite Hd].
  unfold Dict.get_default at 1. rewrite Hc.
  destruct (Dict.del coll i) as [coll'|] eqn:Hdel; cbn [snd _data];
    [|now rewrite Hd].
  unfold Dict.get_default.
  destruct (pair_neq_cases _ _ _ _ Hne) as [Hne'|[-> Hi]].
  - now rewrite DictFacts.get_set_other.
  - rewrite DictFacts.get_set_same, Hc.
    eapply DictFacts.get_del_other; eassumption.
Qed.

Lemma lookup_insert_frame s c i doc c' i' :
  (c', i') <> (c, i) ->
  lookup (snd (insert c i doc s)) c' i' = lookup s c' i'.
Proof.
  intros Hne. destruct (pair_neq_cases _ _ _ _ Hne) as [Hc|[-> Hi]].
  - now apply lookup_insert_other_collection.
  - now apply lookup_insert_other.
Qed.

Lemma started_remove s c i : started (snd (remove c i s)) = started s.
Proof.
  unfold remove, started. destruct (_data s) as [d|] eqn:Hd; cbn [snd];
    [|now rewrite Hd].
  destruct (Dict.get d c) as [coll|]; cbn [snd]; [|now rewrite Hd].
  destruct (Dict.contains coll i); cbn [snd]; [|now rewrite Hd].
  destruct (Dict.del _ i); cbn [snd _data]; [reflexivity | now rewrite Hd].
Qed.

Lemma started_insert_eq s c i doc :
  started (snd (insert c i doc s)) = started s.
Proof.
  unfold insert, started. destruct (_data s) eqn:Hd; cbn [snd _data];
    [reflexivity | now rewrite Hd].
Qed.

Lemma snd_delete s i :
  snd (delete i s) = s \/ snd (delete i s) = snd (remove "product" i s).
Proof.
  unfold delete, bind, fetch_collection.
  destruct (_data s); [|now left].
  destruct (truthy _); [now right | now left].
Qed.

Lemma snd_create s e :
  snd (create e s) = s
  \/ snd (create e s) = snd (insert "product" (product_id e) (asdict e) s).
Proof.
  destruct (started s) eqn:Hs.
  - destruct (truthy (stored s (product_id e))) eqn:Ht.
    + left. now rewrite create_existing.
    + right. now rewrite create_fresh.
  - left. change (snd (create e s)) with (snd (create e s)).
    rewrite <- (snd_bind_ret _ _ (create e) AProduct).
    now apply (call_not_started (Create e)).
Qed.

Lemma snd_update s i e :
  snd (update i e s) = s
  \/ snd (update i e s) = snd (insert "product" (product_id e) (asdict e) s).
Proof.
  destruct (started s) eqn:Hs.
  - destruct (truthy (stored s i)) eqn:Ht.
    + right. now rewrite update_found.
    + left. now rewrite update_missing.
  - left. rewrite <- (snd_bind_ret _ _ (update i e) AProduct).
    now apply (call_not_started (Update i e)).
Qed.

(** A repository call writes at most one document: the one of the
    "product" collection under the entity's id ([create], [update]) or under
    the given id ([delete]).  Every other document of the store, in
    "product" or in any other collection, reads as before, and the store is
    neither started nor stopped. *)
Theorem call_frame (o : op) (s : Database) (c j : string) :
  c <> "product" \/ written_id o <> Some j ->
  lookup (snd (call o s)) c j = lookup s c j
  /\ started (snd (call o s)) = started s.
Proof.
  intros Hne.
  assert (Hpair : forall i, written_id o = Some i ->
                            (c, j) <> ("product", i)).
  { intros i Hi [= -> ->]. destruct Hne as [H|H]; [now apply H|].
    now apply H. }
  destruct o as [e|i e|i|i|]; simpl; rewrite snd_bind_ret.
  - destruct (snd_create s e) as [->| ->]; [now split|].
    split; [apply lookup_insert_frame; now apply Hpair|].
    apply started_insert_eq.
  - destruct (snd_update s i e) as [->| ->]; [now split|].
    split; [apply lookup_insert_frame; now apply Hpair|].
    apply started_insert_eq.
  - destruct (snd_delete s i) as [->| ->]; [now split|].
    split; [apply lookup_remove_other; now apply Hpair|].
    apply started_remove.
  - now rewrite find_by_id_state.
  - now rewrite find_all_state.
Qed.

Lemma call_frame_witness :
  ("product" <> "product" \/ written_id (Delete "1") <> Some "2")
  /\ lookup (snd (call (Delete "1") (snd (create product1 store_with_product2))))
       "product" "2"
     = lookup (snd (create product1 store_with_product2)) "product" "2"
  /\ started
       (snd (call (Delete "1") (snd (create product1 store_with_product2))))
     = started (snd (create product1 store_with_product2)).
Proof.
  split; [right; discriminate|].
  apply (call_frame (Delete "1") (snd (create product1 store_with_product2))
           "product" "2").
  right. discriminate.
Defined.

(** ** What [find_all] returns, and in which order *)

Lemma remaining_step q qs ids :
  remaining (q :: qs) ids
  = if existsb (String.eqb (product_id q)) ids then remaining qs ids
    else q :: remaining qs ids.
Proof.
  unfold remaining. cbn [filter].
  now destruct (existsb (String.eqb (product_id q)) ids).
Qed.

Lemma remaining_nil qs : remaining qs [] = qs.
Proof.
  induction qs as [|q qs IH]; [reflexivity|].
  rewrite remaining_step. cbn [existsb]. now rewrite IH.
Qed.

Lemma remaining_absent qs i :
  ~ In i (map product_id qs) -> remaining qs [i] = qs.
Proof.
  induction qs as [|q qs IH]; [reflexivity|].
  cbn [map In]. intros H. rewrite remaining_step. cbn [existsb].
  destruct (String.eqb (product_id q) i) eqn:E.
  - apply String.eqb_eq in E. tauto.
  - cbn [orb]. rewrite IH; tauto.
Qed.

Lemma remaining_cons qs i ids :
  remaining (remaining qs [i]) ids = remaining qs (i :: ids).
Proof.
  induction qs as [|q qs IH]; [reflexivity|].
  rewrite (remaining_step q qs [i]), (remaining_step q qs (i :: ids)).
  cbn [existsb]. destruct (String.eqb (product_id q) i); cbn [orb].
  - exact IH.
  - rewrite remaining_step.
    destruct (existsb (String.eqb (product_id q)) ids); now rewrite IH.
Qed.

Lemma remaining_ids qs ids x :
  In x (map product_id (remaining qs ids)) -> In x (map product_id qs).
Proof.
  unfold remaining. rewrite !in_map_iff. intros (p & Hp & Hin).
  apply filter_In in Hin. exists p. tauto.
Qed.

Lemma remaining_NoDup qs ids :
  NoDup (map product_id qs) -> NoDup (map product_id (remaining qs ids)).
Proof.
  induction qs as [|q qs IH]; [constructor|].
  cbn [map]. intros H. inversion H; subst. rewrite remaining_step.
  destruct (existsb _ ids); [now apply IH|].
  cbn [map]. constructor; [|now apply IH].
  intros Hin. apply remaining_ids in Hin. contradiction.
Qed.

Lemma del_entries_exact qs i :
  NoDup (map product_id qs) -> In i (map product_id qs) ->
  Dict.del (entries qs) i = Some (entries (remaining qs [i])).
Proof.
  induction qs as [|q qs IH]; [cbn [map In]; tauto|].
  cbn [map In entries Dict.del]. fold (entries qs).
  intros Hnd Hin. inversion Hnd as [|? ? Hq Hnd']; subst.
  rewrite remaining_step. cbn [existsb].
  rewrite (String.eqb_sym (product_id q) i).
  destruct (String.eqb i (product_id q)) eqn:E; cbn [orb].
  - apply String.eqb_eq in E. subst i. now rewrite remaining_absent.
  - apply String.eqb_neq in E. destruct Hin as [Hin|Hin]; [congruence|].
    now rewrite IH.
Qed.

Lemma run_deletes_exact ids :
  forall s qs,
    started s = true -> products s = entries qs ->
    NoDup (map product_id qs) ->
    started (run (map Delete ids) s) = true
    /\ products (run (map Delete ids) s) = entries (remaining qs ids).
Proof.
  induction ids as [|i ids IH]; intros s qs Hs Hp Hq.
  - rewrite remaining_nil. auto.
  - cbn [map run]. simpl call. rewrite snd_bind_ret.
    rewrite <- remaining_cons.
    destruct (in_dec string_dec i (map product_id qs)) as [Hin|Hout].
    + destruct (get_entries_present qs i Hin) as [q Hget].
      assert (Hst : stored s i = Some (asdict q))
        by now rewrite stored_products, Hp.
      destruct (delete_present s i (asdict q) Hst)
        as (c' & Hdel & _ & Hs' & Hp'); [discriminate|].
      rewrite Hp, del_entries_exact in Hdel by assumption.
      injection Hdel as <-.
      apply IH; [assumption | assumption | now apply remaining_NoDup].
    + assert (Hst : stored s i = None).
      { rewrite stored_products, Hp. now apply get_entries_absent. }
      rewrite delete_missing; [|assumption | now rewrite Hst].
      rewrite remaining_absent by assumption. now apply IH.
Qed.

(** On a started store whose "product" collection holds nothing, after the
    products [ps] (distinct ids) are created and the ids [ids] are deleted
    (any ids, repeated or never created), [find_all] returns exactly the
    products of [ps] whose id was not deleted, in the order of their
    creation, and raises [DocumentNotFound] when none is left. *)
Theorem find_all_in_creation_order
  (s : Database) (ps : list Product) (ids : list string) :
  started s = true ->
  products s = Dict.empty ->
  Dict.distinct (map product_id ps) = true ->
  find_all (run (create_then_delete ps ids) s)
  = (match remaining ps ids with
     | [] => Raise DocumentNotFound
     | _ :: _ => Return (remaining ps ids)
     end,
     run (create_then_delete ps ids) s).
Proof.
  intros Hs Hp Hps. apply DictFacts.distinct_NoDup in Hps.
  destruct (run_creates ps s [] Hs Hp Hps) as (Hs1 & Hp1 & _).
  simpl in Hp1.
  destruct (run_deletes_exact ids (run (map Create ps) s) ps Hs1 Hp1 Hps)
    as (Hs2 & Hp2).
  unfold create_then_delete. rewrite run_app.
  now apply find_all_entries.
Qed.

Lemma find_all_in_creation_order_witness :
  (started retrieve_product_repo = true
   /\ products retrieve_product_repo = Dict.empty
   /\ Dict.distinct
        (map product_id [product2; product1; mkProduct "3" "" "" 0%float t0 t0])
      = true)
  /\ fst (find_all
            (run (create_then_delete
                    [product2; product1; mkProduct "3" "" "" 0%float t0 t0]
                    ["1"; "7"; "1"])
               retrieve_product_repo))
     = Return [product2; mkProduct "3" "" "" 0%float t0 t0].
Proof.
  split; [repeat split|].
  rewrite (find_all_in_creation_order retrieve_product_repo
             [product2; product1; mkProduct "3" "" "" 0%float t0 t0]
             ["1"; "7"; "1"] eq_refl eq_refl eq_refl).
  reflexivity.
Defined.

(** ** Updating under the same id *)

(** [update(id, entity)] with [entity.product_id == id] on a non-empty
    document replaces it in place: the entity is returned and read back by
    [find_by_id], and the collection keeps its ids and their order. *)
Theorem update_in_place
  (s : Database) (doc_id : string) (doc : Document) (entity : Product) :
  stored s doc_id = Some doc ->
  doc <> Dict.empty ->
  product_id entity = doc_id ->
  exists s',
    update doc_id entity s = (Return entity, s')
    /\ stored s' doc_id = Some (asdict entity)
    /\ Dict.keys (products s') = Dict.keys (products s)
    /\ find_by_id doc_id s' = (Return entity, s').
Proof.
  intros Hd Hne <-. pose proof (stored_started _ _ _ Hd) as Hs.
  exists (snd (insert "product" (product_id entity) (asdict entity) s)).
  assert (Hst : stored
                  (snd (insert "product" (product_id entity)
                          (asdict entity) s))
                  (product_id entity) = Some (asdict entity))
    by now apply lookup_insert_same.
  split; [|split; [|split]].
  - apply update_found; [assumption|].
    rewrite Hd. now apply truthy_nonempty.
  - assumption.
  - rewrite products_insert by assumption.
    apply DictFacts.keys_set_present.
    rewrite <- stored_products, Hd. discriminate.
  - rewrite (find_by_id_found _ _ (asdict entity));
      [now rewrite Product_kwargs_asdict | now apply started_insert
      | assumption | reflexivity].
Qed.

Lemma update_in_place_witness :
  stored (snd (create product1 store_with_product2)) "2"
  = Some (asdict product2)
  /\ exists s',
       update "2" (mkProduct "2" "New" "" 1%float t0 t0)
         (snd (create product1 store_with_product2))
       = (Return (mkProduct "2" "New" "" 1%float t0 t0), s')
       /\ stored s' "2" = Some (asdict (mkProduct "2" "New" "" 1%float t0 t0))
       /\ Dict.keys (products s') = ["2"; "1"].
Proof.
  split; [reflexivity|].
  destruct (update_in_place (snd (create product1 store_with_product2))
              "2" (asdict product2) (mkProduct "2" "New" "" 1%float t0 t0)
              eq_refl)
    as (s' & H1 & H2 & H3 & _); [discriminate | reflexivity |].
  exists s'. auto.
Defined.

(** ** Deleting, then creating again *)

(** Where a non-empty document is stored under the entity's id, [create]
    raises [DocumentAlreadyExists]; after [delete] of that id it succeeds
    and the entity's document is the one stored. *)
Theorem delete_then_create
  (s : Database) (doc : Document) (entity : Product) :
  Database_wf s = true ->
  stored s (product_id entity) = Some doc ->
  doc <> Dict.empty ->
  create entity s = (Raise DocumentAlreadyExists, s)
  /\ exists s',
       (delete (product_id entity);;; create entity) s = (Return entity, s')
       /\ stored s' (product_id entity) = Some (asdict entity).
Proof.
  intros Hwf Hd Hne. pose proof (stored_started _ _ _ Hd) as Hs.
  split.
  - apply create_existing; [assumption|].
    rewrite Hd. now apply truthy_nonempty.
  - destruct (delete_present _ _ _ Hd Hne) as (c' & Hdel & Hr & Hs' & Hp).
    remember (snd (delete (product_id entity) s)) as s1 eqn:Es1.
    exists (snd (insert "product" (product_id entity) (asdict entity) s1)).
    split.
    + unfold bind at 1. rewrite Hr. apply create_fresh; [assumption|].
      rewrite stored_products, Hp.
      rewrite (DictFacts.get_del_same (products s) (product_id entity));
        auto using wf_products.
    + now apply lookup_insert_same.
Qed.

Lemma delete_then_create_witness :
  Database_wf store_with_product2 = true
  /\ stored store_with_product2 "2" = Some (asdict product2)
  /\ create (mkProduct "2" "New" "" 1%float t0 t0) store_with_product2
     = (Raise DocumentAlreadyExists, store_with_product2)
  /\ exists s',
       (delete "2";;; create (mkProduct "2" "New" "" 1%float t0 t0))
         store_with_product2
       = (Return (mkProduct "2" "New" "" 1%float t0 t0), s')
       /\ stored s' "2" = Some (asdict (mkProduct "2" "New" "" 1%float t0 t0)).
Proof.
  split; [reflexivity|]. split; [reflexivity|].
  apply (delete_then_create store_with_product2 (asdict product2)
           (mkProduct "2" "New" "" 1%float t0 t0));
    [reflexivity | reflexivity | discriminate].
Defined.

(** ** Documents that are no products *)

Ltac kwargs_cases :=
  repeat match goal with
         | |- context [match Dict.get ?d ?k with _ => _ end] =>
             destruct (Dict.get d k) as [[| | | |]|]; try discriminate
         end.

Lemma Product_kwargs_raises d e : Product_kwargs d = Raise e -> e = TypeError.
Proof.
  unfold Product_kwargs. destruct (_ && _); [|now intros [= <-]].
  kwargs_cases.
Qed.

Lemma comprehension_raises A B (f : A -> outcome B) l x e0 :
  In x l -> f x = Raise e0 ->
  exists e y, comprehension f l = Raise e /\ In y l /\ f y = Raise e.
Proof.
  induction l as [|a l IH]; simpl; [tauto|].
  intros Hin Hx. destruct (f a) as [b|e1|] eqn:Ha.
  - destruct Hin as [->|Hin]; [congruence|].
    destruct (IH Hin Hx) as (e & y & -> & Hy & Hfy).
    exists e, y. auto.
  - exists e1, a. auto.
  - destruct Hin as [->|Hin]; [congruence|].
    destruct (IH Hin Hx) as (e & y & -> & Hy & Hfy).
    exists e, y. auto.
Qed.

(** One document of the "product" collection whose keys are not the fields
    of a product (an empty document, for one) makes [find_all] raise
    [TypeError], whatever else the collection holds. *)
Theorem find_all_rejects_foreign_document (s : Database) (doc : Document) :
  started s = true ->
  In doc (Dict.values (products s)) ->
  Product_kwargs doc = Raise TypeError ->
  find_all s = (Raise TypeError, s).
Proof.
  intros Hs Hin Hdoc. unfold find_all, bind.
  rewrite fetch_products by assumption.
  destruct (products s) as [|entry coll] eqn:Hp; [contradiction|].
  cbn [Dict.len List.length Nat.eqb]. unfold pure. f_equal.
  destruct (comprehension_raises _ _ Product_kwargs _ _ _ Hin Hdoc)
    as (e & y & -> & _ & Hy).
  now rewrite (Product_kwargs_raises _ _ Hy).
Qed.

Lemma find_all_rejects_foreign_document_witness :
  (started foreign_document_store = true
   /\ In [("x", VInt 1)] (Dict.values (products foreign_document_store))
   /\ Product_kwargs [("x", VInt 1)] = Raise TypeError)
  /\ find_all foreign_document_store
     = (Raise TypeError, foreign_document_store)
  /\ find_all empty_document_store = (Raise TypeError, empty_document_store).
Proof.
  split; [split; [reflexivity | split; [right; left|]; reflexivity]|].
  split.
  - apply (find_all_rejects_foreign_document foreign_document_store
             [("x", VInt 1)]);
      [reflexivity | right; left; reflexivity | reflexivity].
  - apply (find_all_rejects_foreign_document empty_document_store
             Dict.empty);
      [reflexivity | left; reflexivity | reflexivity].
Defined.

(** ** What the finds return is what is stored *)

Lemma Product_fields_In k :
  existsb (String.eqb k) Product_fields = true ->
  k = "product_id" \/ k = "name" \/ k = "description"
  \/ k = "price" \/ k = "created" \/ k = "updated".
Proof.
  intros H. apply DictFacts.existsb_eqb in H. simpl in H.
  intuition (subst; auto).
Qed.

Lemma Product_kwargs_Return d p :
  Product_kwargs d = Return p -> same_fields d p.
Proof.
  unfold Product_kwargs.
  destruct (forallb _ (Dict.keys d)) eqn:Hkeys; [|discriminate].
  cbn [andb]. destruct (forallb _ Product_fields); [|discriminate].
  destruct (Dict.get d "product_id") as [[| | |i|]|] eqn:E1;
    try discriminate.
  destruct (Dict.get d "name") as [[| | |n|]|] eqn:E2; try discriminate.
  destruct (Dict.get d "description") as [[| | |de|]|] eqn:E3;
    try discriminate.
  destruct (Dict.get d "price") as [[| |pr| |]|] eqn:E4; try discriminate.
  destruct (Dict.get d "created") as [[| | | |c]|] eqn:E5; try discriminate.
  destruct (Dict.get d "updated") as [[| | | |u]|] eqn:E6; try discriminate.
  intros [= <-] k.
  destruct (existsb (String.eqb k) Product_fields) eqn:Hk.
  - apply Product_fields_In in Hk.
    destruct Hk as [->|[->|[->|[->|[->| ->]]]]]; assumption.
  - assert (Hd : Dict.get d k = None).
    { apply DictFacts.get_None_keys. intros Hin.
      rewrite forallb_forall in Hkeys. specialize (Hkeys k Hin).
      congruence. }
    rewrite Hd. symmetry. apply DictFacts.get_None_keys.
    intros Hin. apply (DictFacts.existsb_eqb k) in Hin.
    unfold Product_fields in Hk. cbn [asdict Dict.keys map fst] in Hin.
    cbn [product_id] in Hin. congruence.
Qed.

Lemma find_by_id_Return s i p s' :
  find_by_id i s = (Return p, s') ->
  s' = s
  /\ exists doc,
       stored s i = Some doc /\ Product_kwargs doc = Return p.
Proof.
  intros H. pose proof (find_by_id_state i s) as Hst.
  rewrite H in Hst. cbn [snd] in Hst. subst s'. split; [reflexivity|].
  destruct (started s) eqn:Hs.
  - destruct (stored s i) as [doc|] eqn:Hd.
    + destruct (truthy (Some doc)) eqn:Ht.
      * rewrite (find_by_id_found s i doc) in H by assumption.
        injection H as H. eauto.
      * rewrite find_by_id_missing in H;
          [discriminate | assumption | now rewrite Hd].
    + rewrite find_by_id_missing in H;
        [discriminate | assumption | now rewrite Hd].
  - unfold find_by_id, bind, fetch_collection, started in *.
    destruct (_data s); discriminate.
Qed.

(** Where [find_by_id(id)] returns a product, the store is left as it was
    and the document under [id] holds, key by key, exactly the fields of
    that product; where document ids are the product ids, the product
    returned has the id that was asked for. *)
Theorem find_by_id_sound
  (s s' : Database) (doc_id : string) (p : Product) :
  find_by_id doc_id s = (Return p, s') ->
  s' = s
  /\ (exists doc, stored s doc_id = Some doc /\ same_fields doc p)
  /\ (keyed_by_product_id s = true -> product_id p = doc_id).
Proof.
  intros H. apply find_by_id_Return in H as (-> & doc & Hd & Hk).
  pose proof (Product_kwargs_Return _ _ Hk) as Hsame.
  split; [reflexivity|]. split; [eauto|].
  unfold keyed_by_product_id. rewrite forallb_forall. intros Hkeyed.
  rewrite stored_products in Hd. apply DictFacts.get_In in Hd.
  specialize (Hkeyed _ Hd). unfold keyed in Hkeyed. cbn [fst snd] in Hkeyed.
  rewrite (Hsame "product_id") in Hkeyed. cbn in Hkeyed.
  apply String.eqb_eq in Hkeyed. congruence.
Qed.

Lemma find_by_id_sound_witness :
  find_by_id "2" store_with_product2 = (Return product2, store_with_product2)
  /\ (exists doc,
        stored store_with_product2 "2" = Some doc
        /\ same_fields doc product2)
  /\ (keyed_by_product_id store_with_product2 = true
      -> product_id product2 = "2").
Proof.
  split; [reflexivity|].
  apply (find_by_id_sound store_with_product2 store_with_product2
           "2" product2 eq_refl).
Defined.

Lemma comprehension_Return A B (f : A -> outcome B) l bs :
  comprehension f l = Return bs ->
  Forall2 (fun a b => f a = Return b) l bs.
Proof.
  revert bs. induction l as [|a l IH]; simpl; intros bs.
  - intros [= <-]. constructor.
  - destruct (f a) as [b|e|] eqn:Ha; [|discriminate|].
    + destruct (comprehension f l) as [bs'|e|]; try discriminate.
      intros [= <-]. constructor; auto.
    + destruct (comprehension f l); discriminate.
Qed.

(** Where [find_all] returns a list, the store is left as it was, the list
    is not empty, and it holds one product for each document of the
    "product" collection, in the iteration order of the collection, each
    with exactly the fields of its document. *)
Theorem find_all_sound (s s' : Database) (l : list Product) :
  find_all s = (Return l, s') ->
  s' = s
  /\ l <> []
  /\ Forall2 same_fields (Dict.values (products s)) l.
Proof.
  intros H. pose proof (find_all_state s) as Hst.
  rewrite H in Hst. cbn [snd] in Hst. subst s'. split; [reflexivity|].
  unfold find_all, bind, fetch_collection, products in *.
  destruct (_data s) as [d|]; [|discriminate].
  destruct (Dict.get_default d "product" Dict.empty) as [|entry coll];
    [discriminate|].
  cbn [Dict.len List.length Nat.eqb] in H. unfold pure in H.
  injection H as H.
  apply (comprehension_Return _ _ Product_kwargs
           (Dict.values (entry :: coll))) in H.
  split.
  - inversion H; discriminate.
  - eapply Forall2_impl; [|exact H].
    intros doc p. apply Product_kwargs_Return.
Qed.

Lemma find_all_sound_witness :
  find_all (snd (create product1 store_with_product2))
  = (Return [product2; product1], snd (create product1 store_with_product2))
  /\ [product2; product1] <> []
  /\ Forall2 same_fields
       (Dict.values (products (snd (create product1 store_with_product2))))
       [product2; product1].
Proof.
  split; [reflexivity|].
  apply (find_all_sound (snd (create product1 store_with_product2))
           (snd (create product1 store_with_product2))
           [product2; product1] eq_refl).
Defined.

Lemma keyed_same_fields k doc p :
  keyed (k, doc) = true -> same_fields doc p -> product_id p = k.
Proof.
  unfold keyed. cbn [fst snd]. intros Hk Hsame.
  rewrite (Hsame "product_id") in Hk. cbn in Hk.
  apply String.eqb_eq in Hk. congruence.
Qed.

Lemma keyed_ids coll l :
  forallb keyed coll = true ->
  Forall2 same_fields (Dict.values coll) l ->
  map product_id l = Dict.keys coll.
Proof.
  revert l. induction coll as [|[k doc] coll IH]; intros l Hk H;
    inversion H; subst; [reflexivity|].
  cbn [forallb] in Hk. apply andb_true_iff in Hk as [Hk1 Hk2].
  cbn [map Dict.keys fst]. f_equal.
  - eapply keyed_same_fields; eassumption.
  - now apply IH.
Qed.

(** Where document ids are the product ids, the products that [find_all]
    returns carry, in order, exactly the ids of the "product" collection. *)
Theorem find_all_lists_ids (s s' : Database) (l : list Product) :
  keyed_by_product_id s = true ->
  find_all s = (Return l, s') ->
  map product_id l = Dict.keys (products s).
Proof.
  intros Hk H. apply keyed_ids; [assumption|].
  pose proof (find_all_state s) as Hst.
  rewrite H in Hst. cbn [snd] in Hst. subst s'.
  unfold find_all, bind, fetch_collection, products in *.
  destruct (_data s) as [d|]; [|discriminate].
  destruct (Dict.get_default d "product" Dict.empty) as [|entry coll];
    [discriminate|].
  cbn [Dict.len List.length Nat.eqb] in H. unfold pure in H.
  injection H as H.
  apply (comprehension_Return _ _ Product_kwargs
           (Dict.values (entry :: coll))) in H.
  eapply Forall2_impl; [|exact H].
  intros doc p. apply Product_kwargs_Return.
Qed.

Lemma find_all_lists_ids_witness :
  keyed_by_product_id (snd (create product1 store_with_product2)) = true
  /\ find_all (snd (create product1 store_with_product2))
     = (Return [product2; product1],
        snd (create product1 store_with_product2))
  /\ map product_id [product2; product1]
     = Dict.keys (products (snd (create product1 store_with_product2))).
Proof.
  split; [reflexivity|]. split; [reflexivity|].
  apply (find_all_lists_ids (snd (create product1 store_with_product2))
           (snd (create product1 store_with_product2))
           [product2; product1] eq_refl eq_refl).
Defined.

(** ** Updating onto another document *)

(** [update(doc_id, entity)] never raises [DocumentAlreadyExists]: where a
    non-empty document is stored under [doc_id] and another document is
    stored under [entity.product_id], the entity is returned, that other
    document is overwritten, and the collection keeps its ids. *)
Theorem update_overwrites_other
  (s : Database) (doc_id : string) (doc other : Document)
  (entity : Product) :
  stored s doc_id = Some doc ->
  doc <> Dict.empty ->
  stored s (product_id entity) = Some other ->
  exists s',
    update doc_id entity s = (Return entity, s')
    /\ stored s' (product_id entity) = Some (asdict entity)
    /\ Dict.keys (products s') = Dict.keys (products s).
Proof.
  intros Hd Hne Ho. pose proof (stored_started _ _ _ Hd) as Hs.
  exists (snd (insert "product" (product_id entity) (asdict entity) s)).
  split; [|split].
  - apply update_found; [assumption|].
    rewrite Hd. now apply truthy_nonempty.
  - now apply lookup_insert_same.
  - rewrite products_insert by assumption.
    apply DictFacts.keys_set_present.
    rewrite <- stored_products, Ho. discriminate.
Qed.

Lemma update_overwrites_other_witness :
  (stored (snd (create product1 store_with_product2)) "2"
   = Some (asdict product2)
   /\ stored (snd (create product1 store_with_product2)) "1"
      = Some (asdict product1))
  /\ exists s',
       update "2" (mkProduct "1" "New" "" 1%float t0 t0)
         (snd (create product1 store_with_product2))
       = (Return (mkProduct "1" "New" "" 1%float t0 t0), s')
       /\ stored s' "1" = Some (asdict (mkProduct "1" "New" "" 1%float t0 t0))
       /\ Dict.keys (products s') = ["2"; "1"].
Proof.
  split; [split; reflexivity|].
  destruct (update_overwrites_other
              (snd (create product1 store_with_product2))
              "2" (asdict product2) (asdict product1)
              (mkProduct "1" "New" "" 1%float t0 t0) eq_refl)
    as (s' & H1 & H2 & H3); [discriminate | reflexivity |].
  exists s'. auto.
Defined.
